(** * Campaign analysis proxy

    A shallow embedding of the serverless handler of [api/analyze.ts]
    (method and credential guards, request validation, prompt assembly,
    pass-through of the scoring oracle's answer), of the client that calls
    it ([services/geminiService.ts]), and of the results table: its score
    cards and colours, its recommendation badge and its CSV export
    ([convertToCSV], [handleDownload]). *)

From Stdlib Require Import List String Ascii ZArith QArith Qround Qabs Lqa Lia Bool.
From Stdlib Require Import DecimalString.
Import ListNotations.
Local Open Scope string_scope.

(** ** JavaScript values

    Request bodies and oracle answers are JSON documents, so a value is one
    of the JSON shapes plus [undefined] (the result of reading a missing
    property).  An object lists each of its properties once, in enumeration
    order, which is what [Object.keys] and [Object.values] observe.
    Numbers are IEEE doubles in the engine; the model keeps their type
    abstract and takes the few engine operations the code applies to them
    as an interface. *)

#[local] Set Warnings "-register-all".

Inductive value (number : Type) : Type :=
| Undefined
| Null
| Bool (b : bool)
| Num (n : number)
| Str (s : string)
| Arr (items : list (value number))
| Obj (props : list (string * value number)).

Arguments Undefined {number}.
Arguments Null {number}.
Arguments Bool {number} b.
Arguments Num {number} n.
Arguments Str {number} s.
Arguments Arr {number} items.
Arguments Obj {number} props.

(** Engine-provided operations that the repository calls but does not
    define. *)
Class Builtins (number : Type) : Type := {
  (** [ToBoolean] on a number: false exactly for [0], [-0] and [NaN]. *)
  ToBoolean_number : number -> bool;
  (** [String(n)] for a number. *)
  Number_toString : number -> string;
  (** [JSON.stringify] on a value that is not [undefined]. *)
  JSON_stringify : value number -> string
}.

(** ** Exceptions *)

(** What a [catch] clause can observe of the thrown value: the handler only
    asks [error instanceof Error] and reads [error.message]. *)
Inductive thrown : Type :=
| ErrorObject (message : string)
| NotAnError.

Inductive Exc (A : Type) : Type :=
| Return (a : A)
| Throw (e : thrown).

Arguments Return {A} a.
Arguments Throw {A} e.

Definition bindE {A B : Type} (c : Exc A) (k : A -> Exc B) : Exc B :=
  match c with
  | Return a => k a
  | Throw e => Throw e
  end.

Notation "x <- c ;; k" := (bindE c (fun x => k))
  (at level 61, c at next level, right associativity).

Fixpoint mapE {A B : Type} (f : A -> Exc B) (l : list A) : Exc (list B) :=
  match l with
  | [] => Return []
  | a :: l' => b <- f a ;; bs <- mapE f l' ;; Return (b :: bs)
  end.

(** ** Text helpers *)

Definition dq_char : ascii := ascii_of_nat 34.
Definition dq : string := String dq_char EmptyString.
Definition nl_char : ascii := ascii_of_nat 10.
Definition nl : string := String nl_char EmptyString.
Definition comma_char : ascii := ascii_of_nat 44.

(** [Array.prototype.join] on an array of strings. *)
Definition join (sep : string) (l : list string) : string := String.concat sep l.

(** The global replace of [convertToCSV]: every quote character of the
    text becomes two quote characters. *)
Fixpoint double_quotes (s : string) : string :=
  match s with
  | EmptyString => EmptyString
  | String c s' =>
      if Ascii.eqb c dq_char
      then String dq_char (String dq_char (double_quotes s'))
      else String c (double_quotes s')
  end.

(** ** Reading values *)

Section Values.
Context {number : Type} `{Builtins number}.

Local Abbreviation value := (value number).

(** [ToBoolean]: arrays and objects are truthy even when empty. *)
Definition ToBoolean (v : value) : bool :=
  match v with
  | Undefined | Null => false
  | Bool b => b
  | Num n => ToBoolean_number n
  | Str s => negb (s =? "")
  | Arr _ | Obj _ => true
  end.

(** The [TypeError] of a conversion to a primitive that finds no callable
    [toString] and no [valueOf] returning a primitive. *)
Definition not_primitive : thrown :=
  ErrorObject "Cannot convert object to primitive value".

(** The object has an own property named [toString].  In a JSON document
    its value is never callable, so it hides [Object.prototype.toString]. *)
Definition hides_toString (props : list (string * value)) : bool :=
  existsb (fun kv => fst kv =? "toString") props.

(** [ToString], as applied by template literals, by [String(v)] and by
    [new Error(v)].  An object converts through its [toString] method: the
    inherited one gives the fixed text, an own [toString] property (not
    callable) leaves only [valueOf], which returns the object itself, and
    the conversion throws.  An array converts through [join], which
    converts its elements in order, [null] and [undefined] to the empty
    text. *)
Fixpoint ToString (v : value) : Exc string :=
  match v with
  | Undefined => Return "undefined"
  | Null => Return "null"
  | Bool true => Return "true"
  | Bool false => Return "false"
  | Num n => Return (Number_toString n)
  | Str s => Return s
  | Arr items =>
      texts <- (fix each (l : list value) : Exc (list string) :=
                  match l with
                  | [] => Return []
                  | x :: l' =>
                      s <- match x with
                           | Undefined | Null => Return ""
                           | _ => ToString x
                           end ;;
                      ss <- each l' ;;
                      Return (s :: ss)
                  end) items ;;
      Return (join "," texts)
  | Obj props =>
      if hides_toString props then Throw not_primitive
      else Return "[object Object]"
  end.

(** The text of an array element under [join]. *)
Definition element_text (x : value) : Exc string :=
  match x with
  | Undefined | Null => Return ""
  | _ => ToString x
  end.

Definition lookup (props : list (string * value)) (k : string) : value :=
  match find (fun kv => fst kv =? k) props with
  | Some kv => snd kv
  | None => Undefined
  end.

(** [v.k] on a receiver that is neither [null] nor [undefined], for a
    property name [k] that is not a built-in member (no [length], no
    index): own properties of an object, [undefined] on anything else. *)
Definition get (v : value) (k : string) : value :=
  match v with
  | Obj props => lookup props k
  | _ => Undefined
  end.

(** [v === s] for a string literal [s]. *)
Definition strict_eq_string (v : value) (s : string) : bool :=
  match v with
  | Str t => t =? s
  | _ => false
  end.

Definition Object_keys (o : list (string * value)) : list string := map fst o.
Definition Object_values (o : list (string * value)) : list value := map snd o.
End Values.

(** ** Preset tables ([types.ts]) *)

Definition audienceOptions : list (string * string) :=
  [ ("general", "General Consumers (B2C)");
    ("genz", "Gen Z / Young Adults");
    ("millennials", "Millennials");
    ("parents", "Parents / Families");
    ("b2b", "B2B Professionals / Decision Makers");
    ("smb", "Small Business Owners");
    ("custom", "Custom...") ].

Definition toneOptions : list (string * string) :=
  [ ("professional", "Professional / Authoritative");
    ("friendly", "Friendly / Conversational");
    ("humorous", "Humorous / Witty");
    ("empathetic", "Empathetic / Caring");
    ("inspirational", "Inspirational / Aspirational");
    ("urgent", "Direct / Urgent");
    ("custom", "Custom...") ].

(** ** Instruction texts

    The template literals of [api/analyze.ts], cut at their interpolation
    holes; line breaks and indentation are those of the source. *)

Definition instructions_awareness : string :=
  "The user's goal is 'Create Awareness'. The main goal is to get attention and be memorable.
                - **subjectiveFitScore**: Should be HIGHEST for messages that are simple, catchy, and have a strong emotional hook (positive like joy/surprise, or even negative if it's attention-grabbing). Prioritize high shareability and clarity.
                - A message is a POOR FIT if it is too complex, boring, or lacks a strong emotional angle.".

Definition instructions_consideration : string :=
  "The user's goal is 'Drive Consideration'. The main goal is to build trust and inform the user, helping them evaluate the product.
                - **subjectiveFitScore**: Should be HIGHEST for messages that are informative, benefit-driven, and have a neutral-to-positive, trustworthy tone. Clarity and credibility are key.
                - A message is a POOR FIT if it's overly emotional, vague, or sounds like high-pressure sales hype.".

Definition instructions_sales : string :=
  "The user's goal is 'Drive Sales (Conversion)'. The main goal is to get the user to take a specific action NOW.
                - **subjectiveFitScore**: Should be HIGHEST for messages with a very clear, strong Call-to-Action (CTA) that create urgency or scarcity (e.g., using fear of missing out). A slightly anxious or exciting tone is GOOD. The ctaStrengthScore is critical for this objective.
                - A message is a POOR FIT if the CTA is weak/unclear, or if the tone is too passive and doesn't motivate action.".

Definition instructions_loyalty : string :=
  "The user's goal is 'Build Loyalty (Retention)'. The main goal is to make existing customers feel valued.
                - **subjectiveFitScore**: Should be HIGHEST for messages with a warm, appreciative, and positive tone. Language of exclusivity (" ++ dq ++ "for our members" ++ dq ++ "), community, and gratitude should be rewarded.
                - A message is a POOR FIT if it feels impersonal, generic, or is too focused on selling instead of thanking or rewarding.".

Definition instructions_default : string :=
  "No specific objective provided. Use a general-purpose analysis, balancing all factors equally.".

Definition prompt_part0 : string :=
  "
            You are an expert marketing campaign analyst. Your task is to evaluate one or more campaign messages based on a rigorous set of criteria and the user's specified context. Return the analysis in a structured JSON format.

            **Critical Context: Marketing Objective**
            ".

Definition prompt_part1 : string :=
  "
            ".

Definition prompt_part2 : string :=
  "
            
            **Input Data:**

            1.  **Campaign Messages:**
                ```json
                ".

Definition prompt_part3 : string :=
  "
                ```

            2.  **Trending Keywords:**
                ```json
                ".

Definition prompt_part4 : string :=
  "
                ```

            3.  **Call-to-Action (CTA) Examples:**
                ```json
                ".

Definition prompt_part5 : string :=
  "
                ```

            **Analysis Criteria (Score from 1 to 5):**

            1.  **combinedEmotionScore (1-5):** Analyze the raw emotional tone, independent of intent. 1 is extremely negative, 3 is neutral, 5 is extremely positive.
            2.  **clarityAndImpactScore (1-5):** Evaluate message quality. 1 is unclear and weak (passive voice, long sentences, jargon). 5 is crystal-clear and powerful (active voice, strong verbs, concise).
            3.  **trendRelevanceScore (1-5):** Assess relevance to the provided " ++ dq ++ "Trending Keywords" ++ dq ++ ". 1 is no relevance, 5 is highly relevant and well-integrated.
            4.  **steppsShareabilityScore (1-5):** Evaluate potential for social sharing. Consider emotional resonance, practical value, and engagement. 1 is low, 5 is high.
            5.  **ctaStrengthScore (1-5):** Analyze the Call-to-Action. 1 is weak, vague, or missing. 5 is clear, urgent, and persuasive.
            6.  **subjectiveFitScore (1-5):** This is the most important score. Based on the **Marketing Objective** and any provided **Optional Campaign Details**, how well does the message fit the strategic goal? 1 is a complete mismatch, 5 is a perfect fit.

            **Final Calculations:**

            Using the scores from the analysis, calculate the following:

            1.  **weightedCampaignConfidenceScore:** Calculate a weighted average using these weights:
                *   subjectiveFitScore: 0.25
                *   clarityAndImpactScore: 0.20
                *   combinedEmotionScore: 0.20
                *   ctaStrengthScore: 0.15
                *   trendRelevanceScore: 0.10
                *   steppsShareabilityScore: 0.10
                Round the final score to two decimal places.

            2.  **recommendation:** Based on the " ++ dq ++ "weightedCampaignConfidenceScore" ++ dq ++ ", provide one of the following recommendations:
                *   " ++ dq ++ "✅ Strong potential to succeed" ++ dq ++ " (if score >= 4.0)
                *   " ++ dq ++ "⚠️ Good, but revise key elements" ++ dq ++ " (if score >= 3.0 and < 4.0)
                *   " ++ dq ++ "❌ Needs rework before launch" ++ dq ++ " (if score < 3.0)

            **Output Format:**

            Return a JSON object containing a single key " ++ dq ++ "results" ++ dq ++ " which is an array of JSON objects, one for each campaign message provided. Strictly adhere to the provided JSON schema for each object in the array.
          ".
Definition details_tpl0_part0 : string :=
  "- **Target Audience:** " ++ dq.

Definition details_tpl0_part1 : string :=
  dq ++ ". The message should resonate with this specific group.
".

Definition details_tpl1_part0 : string :=
  "- **Brand Tone/Voice:** " ++ dq.

Definition details_tpl1_part1 : string :=
  dq ++ ". The message's tone must be consistent with this brand voice.
".

Definition details_tpl2_part0 : string :=
  "- **Key Message/USP:** " ++ dq.

Definition details_tpl2_part1 : string :=
  dq ++ ". The message should clearly communicate or reinforce this core idea.
".

Definition details_tpl3_part0 : string :=
  "
        **Optional Campaign Details for Deeper Analysis:**
        You MUST evaluate the campaign's fit against these specific details. The subjectiveFitScore should be heavily penalized if the message clashes with this context.
    ".

Definition details_tpl3_part1 : string :=
  "
            ".

(** The prompt template with its five holes filled. *)
Definition prompt (objectiveInstructions optionalDetailsInstructions
                   campaignsJson keywordsJson ctaTextsJson : string) : string :=
  prompt_part0 ++ objectiveInstructions ++
  prompt_part1 ++ optionalDetailsInstructions ++
  prompt_part2 ++ campaignsJson ++
  prompt_part3 ++ keywordsJson ++
  prompt_part4 ++ ctaTextsJson ++
  prompt_part5.

(** ** The handler *)

Record Response (number : Type) : Type := mkResponse {
  status : Z;
  headers : list (string * list string);
  payload : value number + string   (* [.json(v)] or [.end(text)] *)
}.

Arguments mkResponse {number} status headers payload.
Arguments status {number} r.
Arguments headers {number} r.
Arguments payload {number} r.

Record Request (number : Type) : Type := mkRequest {
  method : string;
  body : value number
}.

Arguments mkRequest {number} method body.
Arguments method {number} r.
Arguments body {number} r.

(** The message the [catch] clause reports. *)
Definition errorMessage (e : thrown) : string :=
  match e with
  | ErrorObject message => message
  | NotAnError => "An unknown server error occurred."
  end.

(** [!API_KEY] for [process.env.API_KEY], a string or [undefined]. *)
Definition key_missing (API_KEY : option string) : bool :=
  match API_KEY with
  | None => true
  | Some k => k =? ""
  end.

Section Server.
Context {number : Type} `{Builtins number}.

Local Abbreviation value := (value number).
Local Abbreviation Response := (Response number).
Local Abbreviation Request := (Request number).

Definition getMarketingObjectiveInstructions (objective : value) : string :=
  if strict_eq_string objective "awareness" then instructions_awareness
  else if strict_eq_string objective "consideration" then instructions_consideration
  else if strict_eq_string objective "sales" then instructions_sales
  else if strict_eq_string objective "loyalty" then instructions_loyalty
  else instructions_default.

(** [options.find(opt => opt.value === v)?.label] *)
Definition find_label (options : list (string * string)) (v : value) : value :=
  match find (fun opt => strict_eq_string v (fst opt)) options with
  | Some opt => Str (snd opt)
  | None => Undefined
  end.

Definition getAudienceText (details : value) : value :=
  if negb (ToBoolean (get details "targetAudience")) then Null
  else if strict_eq_string (get details "targetAudience") "custom"
       then get details "customTargetAudience"
  else find_label audienceOptions (get details "targetAudience").

Definition getBrandToneText (details : value) : value :=
  if negb (ToBoolean (get details "brandTone")) then Null
  else if strict_eq_string (get details "brandTone") "custom"
       then get details "customBrandTone"
  else find_label toneOptions (get details "brandTone").

(** [instructions += head + text + tail] when [v] is truthy, where the
    template literal converts [v] to its text and may throw. *)
Definition add_line (instructions head : string) (v : value) (tail : string)
  : Exc string :=
  if ToBoolean v
  then text <- ToString v ;; Return (instructions ++ head ++ text ++ tail)
  else Return instructions.

(** [details] is truthy when this runs, so its property reads cannot
    throw; the template literals can. *)
Definition getOptionalDetailsInstructions (details : value) : Exc string :=
  let instructions := "" in
  let audienceText := getAudienceText details in
  instructions <- add_line instructions details_tpl0_part0 audienceText
                           details_tpl0_part1 ;;
  let brandToneText := getBrandToneText details in
  instructions <- add_line instructions details_tpl1_part0 brandToneText
                           details_tpl1_part1 ;;
  instructions <- add_line instructions details_tpl2_part0 (get details "keyMessage")
                           details_tpl2_part1 ;;
  if negb (instructions =? "")
  then Return (details_tpl3_part0 ++ instructions ++ details_tpl3_part1)
  else Return "".

(** [const { campaigns, keywords, ctas, objective, details } = req.body]:
    destructuring [null] or [undefined] throws a [TypeError]; any other
    body yields its five properties, [undefined] where missing. *)
Definition destructure (b : value) : Exc (value * value * value * value * value) :=
  match b with
  | Undefined =>
      Throw (ErrorObject "Cannot destructure property 'campaigns' of 'req.body' as it is undefined.")
  | Null =>
      Throw (ErrorObject "Cannot destructure property 'campaigns' of 'req.body' as it is null.")
  | _ => Return (get b "campaigns", get b "keywords", get b "ctas",
                 get b "objective", get b "details")
  end.

(** [c['CTA Text']] inside the [map] callback. *)
Definition cta_text (c : value) : Exc value :=
  match c with
  | Undefined =>
      Throw (ErrorObject "Cannot read properties of undefined (reading 'CTA Text')")
  | Null =>
      Throw (ErrorObject "Cannot read properties of null (reading 'CTA Text')")
  | _ => Return (get c "CTA Text")
  end.

(** [ctas.map(c => c['CTA Text'])] on a truthy [ctas]: only an array has a
    callable [map]. *)
Definition cta_texts (ctas : value) : Exc value :=
  match ctas with
  | Arr items => texts <- mapE cta_text items ;; Return (Arr texts)
  | _ => Throw (ErrorObject "ctas.map is not a function")
  end.

(** The prompt built from validated fields; fails where the optional
    details or [cta_texts] do, in that order. *)
Definition assemble_prompt (campaigns keywords ctas objective details : value)
  : Exc string :=
  let objectiveInstructions := getMarketingObjectiveInstructions objective in
  optionalDetailsInstructions <- getOptionalDetailsInstructions details ;;
  let campaignsJson := JSON_stringify campaigns in
  let keywordsJson := JSON_stringify keywords in
  texts <- cta_texts ctas ;;
  Return (prompt objectiveInstructions optionalDetailsInstructions
                 campaignsJson keywordsJson (JSON_stringify texts)).

Definition json (code : Z) (v : value) : Response :=
  mkResponse code [] (inl v).

Definition missing_parameters : Response :=
  json 400 (Obj [("error", Str "Missing required parameters in request body.")]).

(** The scoring oracle stands for [ai.models.generateContent] followed by
    [.text.trim()] and [JSON.parse]: all library code.  It answers a
    prompt with the parsed document, or throws (transport failure, missing
    text, malformed JSON). *)
Variable oracle : string -> Exc value.

(** The body of the [try] block.  The second component lists the prompts
    sent to the oracle, in order. *)
Definition try_block (req : Request) : Exc Response * list string :=
  match destructure (body req) with
  | Throw e => (Throw e, [])
  | Return (campaigns, keywords, ctas, objective, details) =>
      if negb (ToBoolean campaigns) || negb (ToBoolean keywords)
         || negb (ToBoolean ctas) || negb (ToBoolean objective)
         || negb (ToBoolean details)
      then (Return missing_parameters, [])
      else
        match assemble_prompt campaigns keywords ctas objective details with
        | Throw e => (Throw e, [])
        | Return p =>
            (parsedJson <- oracle p ;;
             if ToBoolean parsedJson && ToBoolean (get parsedJson "results")
             then Return (json 200 (get parsedJson "results"))
             else Throw (ErrorObject "Invalid response structure from Gemini API."),
             [p])
        end
  end.

Definition handler (API_KEY : option string) (req : Request)
  : Response * list string :=
  if negb (method req =? "POST")
  then (mkResponse 405 [("Allow", ["POST"])]
                   (inr ("Method " ++ method req ++ " Not Allowed")), [])
  else if key_missing API_KEY
  then (json 500 (Obj [("error", Str "API_KEY environment variable not set on the server.")]), [])
  else
    match try_block req with
    | (Return r, calls) => (r, calls)
    | (Throw e, calls) =>
        (json 500 (Obj [("error", Str "Failed to analyze campaigns.");
                        ("details", Str (errorMessage e))]), calls)
    end.
End Server.

(** ** CSV export ([ResultsTable]) *)

Record Download : Type := mkDownload {
  blob_content : string;
  blob_type : string;
  file_name : string
}.

Section CsvExport.
Context {number : Type} `{Builtins number}.

Local Abbreviation value := (value number).

(** A result record as the export sees it: an object, its properties in
    enumeration order. *)
Definition record : Type := list (string * value).

(** The callback of the inner [map]: [String(value)] can throw. *)
Definition quote_field (v : value) : Exc string :=
  text <- ToString v ;; Return (dq ++ double_quotes text ++ dq).

Definition csv_row (row : record) : Exc string :=
  fields <- mapE quote_field (Object_values row) ;; Return (join "," fields).

(** [data[0]] of an empty array is [undefined], on which [Object.keys]
    throws a [TypeError]; on a non-empty array the conversion throws where
    [String(value)] does. *)
Definition convertToCSV (data : list record) : Exc string :=
  match data with
  | [] => Throw (ErrorObject "Cannot convert undefined or null to object")
  | first :: _ =>
      let headers := join "," (Object_keys first) in
      rows <- mapE csv_row data ;;
      Return (join nl (headers :: rows))
  end.

(** [download_supported] is the browser test [link.download !== undefined].
    The result is the file handed to the browser, if any; an exception of
    [convertToCSV] is not caught here. *)
Definition handleDownload (download_supported : bool) (results : list record)
  : Exc (option Download) :=
  csv <- convertToCSV results ;;
  if download_supported
  then Return (Some (mkDownload csv "text/csv;charset=utf-8;"
                                "Campaign_Evaluation_Result.csv"))
  else Return None.

(** The text of every field value, record by record, in the order the
    conversion computes them. *)
Definition field_texts (data : list record) : Exc (list (list string)) :=
  mapE (fun row => mapE ToString (Object_values row)) data.
End CsvExport.

(** ** Reading an exported file back *)

(** [quotes_paired s]: every quote character of [s] belongs to a pair of
    adjacent quotes. *)
Fixpoint quotes_paired_from (pending : bool) (s : string) : bool :=
  match s with
  | EmptyString => negb pending
  | String c s' =>
      if Ascii.eqb c dq_char then quotes_paired_from (negb pending) s'
      else if pending then false
      else quotes_paired_from false s'
  end.

Definition quotes_paired (s : string) : bool := quotes_paired_from false s.

(** Modelled from the spec: the reader of an exported file, which the
    repository does not contain.  Section 8 describes it as splitting off
    the header row, unquoting the fields and replacing doubled quote
    characters by single ones; this is the usual reading of quoted CSV
    fields, in which a separator or a line break inside quotes is data. *)
Inductive reader_state : Type :=
| FieldStart    (* an opening quote is due *)
| InField       (* inside a quoted field *)
| QuoteSeen.    (* just after a quote inside a field *)

(** Modelled from the spec: the reading of quoted rows, absent from the
    repository.  [read_rows st s] reads the rows of [s] starting in state
    [st] and returns the rest of the field under way, the remaining fields
    of its row, and the rows after it. *)
Fixpoint read_rows (st : reader_state) (s : string)
  : option (string * list string * list (list string)) :=
  match st, s with
  | FieldStart, String c s' =>
      if Ascii.eqb c dq_char then read_rows InField s' else None
  | FieldStart, EmptyString => None
  | InField, String c s' =>
      if Ascii.eqb c dq_char then read_rows QuoteSeen s'
      else match read_rows InField s' with
           | Some (f, fs, rs) => Some (String c f, fs, rs)
           | None => None
           end
  | InField, EmptyString => None
  | QuoteSeen, String c s' =>
      if Ascii.eqb c dq_char
      then match read_rows InField s' with
           | Some (f, fs, rs) => Some (String dq_char f, fs, rs)
           | None => None
           end
      else if Ascii.eqb c comma_char
      then match read_rows FieldStart s' with
           | Some (f, fs, rs) => Some (EmptyString, f :: fs, rs)
           | None => None
           end
      else if Ascii.eqb c nl_char
      then match read_rows FieldStart s' with
           | Some (f, fs, rs) => Some (EmptyString, [], (f :: fs) :: rs)
           | None => None
           end
      else None
  | QuoteSeen, EmptyString => Some (EmptyString, [], [])
  end.

(** Modelled from the spec: splitting off the header row, absent from the
    repository.  The text after the first line break, if there is one. *)
Fixpoint after_header (s : string) : option string :=
  match s with
  | EmptyString => None
  | String c s' => if Ascii.eqb c nl_char then Some s' else after_header s'
  end.

(** Modelled from the spec: the parse of an exported text into the field
    texts of its records, absent from the repository. *)
Definition parse_rows (text : string) : option (list (list string)) :=
  match after_header text with
  | None => None
  | Some rest =>
      match read_rows FieldStart rest with
      | Some (f, fs, rs) => Some ((f :: fs) :: rs)
      | None => None
      end
  end.

(** Export, then read back. *)
Definition export_then_parse {number : Type} `{Builtins number}
  (data : list (record (number := number))) : option (list (list string)) :=
  match convertToCSV data with
  | Return text => parse_rows text
  | Throw _ => None
  end.

Definition has_newline (s : string) : bool :=
  existsb (fun c => Ascii.eqb c nl_char) (list_ascii_of_string s).

(** ** The aggregation rule

    Modelled from the spec: the function that turns six component scores
    into the composite score and the recommendation.  The repository
    contains no such function: the rule is written into the prompt (the
    final calculations block) and left to the scoring oracle, whose answer
    the handler forwards unchanged.  The definitions follow section 4.3 of
    the specification, in exact rational arithmetic. *)

Module Aggregation.

Record Scores : Type := mkScores {
  subjectiveFit : Q;
  clarityAndImpact : Q;
  combinedEmotion : Q;
  ctaStrength : Q;
  trendRelevance : Q;
  steppsShareability : Q
}.

(** Modelled from the spec: the weights of the composite, absent from the
    code as data.  Result field, component, weight in hundredths; in the
    order of the prompt. *)
Definition weights : list (string * (Scores -> Q) * Z) :=
  [ ("subjectiveFitScore", subjectiveFit, 25%Z);
    ("clarityAndImpactScore", clarityAndImpact, 20%Z);
    ("combinedEmotionScore", combinedEmotion, 20%Z);
    ("ctaStrengthScore", ctaStrength, 15%Z);
    ("trendRelevanceScore", trendRelevance, 10%Z);
    ("steppsShareabilityScore", steppsShareability, 10%Z) ].

Definition weight (hundredths : Z) : Q := inject_Z hundredths / 100.

(** Modelled from the spec: the weighted sum of section 4.3, which no
    function of the repository computes. *)
Definition weighted_sum (s : Scores) : Q :=
  fold_right (fun '(_, component, w) acc => weight w * component s + acc) 0 weights.

(** Modelled from the spec: rounding to two decimal places, which no
    function of the repository performs.  The nearest multiple of one
    hundredth, a tie going up. *)
Definition round2 (q : Q) : Q := inject_Z (Qfloor (q * 100 + (1 # 2))) / 100.

(** Modelled from the spec: the composite score, computed by the oracle
    and not by the repository. *)
Definition composite (s : Scores) : Q := round2 (weighted_sum s).

Inductive Tier : Type := Strong | Good | NeedsRework.

(** Modelled from the spec: the thresholds of the recommendation, applied
    by the oracle and not by the repository. *)
Definition tier (score : Q) : Tier :=
  if Qle_bool 4 score then Strong
  else if Qle_bool 3 score then Good
  else NeedsRework.

(** The wording of a tier, and the marker the prompt puts before it. *)
Definition tier_text (t : Tier) : string :=
  match t with
  | Strong => "Strong potential to succeed"
  | Good => "Good, but revise key elements"
  | NeedsRework => "Needs rework before launch"
  end.

Definition tier_marker (t : Tier) : string :=
  match t with
  | Strong => "✅"
  | Good => "⚠️"
  | NeedsRework => "❌"
  end.

Definition tier_condition (t : Tier) : string :=
  match t with
  | Strong => "(if score >= 4.0)"
  | Good => "(if score >= 3.0 and < 4.0)"
  | NeedsRework => "(if score < 3.0)"
  end.

(** Modelled from the spec: the recommendation of a score record, chosen
    by the oracle and not by the repository. *)
Definition recommendation (s : Scores) : string := tier_text (tier (composite s)).

Definition uniform (x : Q) : Scores := mkScores x x x x x x.

(** How the prompt words a weight and a tier. *)
Definition weight_line (name : string) (hundredths : Z) : string :=
  "*   " ++ name ++ ": 0." ++ NilZero.string_of_int (Z.to_int hundredths).

Definition tier_line (t : Tier) : string :=
  "*   " ++ dq ++ tier_marker t ++ " " ++ tier_text t ++ dq ++ " " ++ tier_condition t.

End Aggregation.

(** [contains needle hay]: [needle] occurs in [hay]. *)
Fixpoint contains (needle hay : string) : bool :=
  if String.prefix needle hay then true
  else match hay with
       | EmptyString => false
       | String _ hay' => contains needle hay'
       end.

(** ** An instance to run the model on

    Integers stand for numbers; [stringify] writes compact JSON. *)

Module OnIntegers.

Definition Z_toString (z : Z) : string := NilZero.string_of_int (Z.to_int z).

Fixpoint escape (s : string) : string :=
  match s with
  | EmptyString => EmptyString
  | String c s' =>
      if Ascii.eqb c dq_char || Ascii.eqb c (ascii_of_nat 92)
      then String (ascii_of_nat 92) (String c (escape s'))
      else String c (escape s')
  end.

Fixpoint stringify (v : value Z) : string :=
  match v with
  | Undefined | Null => "null"
  | Bool true => "true"
  | Bool false => "false"
  | Num n => Z_toString n
  | Str s => dq ++ escape s ++ dq
  | Arr items => "[" ++ join "," (map stringify items) ++ "]"
  | Obj props =>
      "{" ++ join "," (map (fun kv => let '(k, x) := kv in
                                      dq ++ escape k ++ dq ++ ":" ++ stringify x) props)
          ++ "}"
  end.

#[export] Instance Z_builtins : Builtins Z := {
  ToBoolean_number := fun z => negb (z =? 0)%Z;
  Number_toString := Z_toString;
  JSON_stringify := stringify
}.

(** An oracle that scores every campaign it is given. *)
Definition result_of (message : string) : value Z :=
  Obj [ ("campaignMessage", Str message);
        ("combinedEmotionScore", Num 4%Z);
        ("clarityAndImpactScore", Num 4%Z);
        ("trendRelevanceScore", Num 3%Z);
        ("steppsShareabilityScore", Num 3%Z);
        ("ctaStrengthScore", Num 5%Z);
        ("subjectiveFitScore", Num 4%Z);
        ("weightedCampaignConfidenceScore", Num 4%Z);
        ("recommendation", Str "Strong potential to succeed") ].

Definition sample_body : value Z :=
  Obj [ ("campaigns", Arr [Str "Summer sale starts now"; Str "Join our members club"]);
        ("keywords", Arr [Str "summer"]);
        ("ctas", Arr [Obj [("CTA Text", Str "Shop now"); ("Type Score", Num 4%Z)]]);
        ("objective", Str "sales");
        ("details", Obj [("targetAudience", Str "genz"); ("keyMessage", Str "Up to 50% off")]) ].

Definition post (b : value Z) : Request Z := mkRequest "POST" b.

Definition faithful_oracle (_ : string) : Exc (value Z) :=
  Return (Obj [("results", Arr [result_of "Summer sale starts now";
                                result_of "Join our members club"])]).

Definition empty_oracle (_ : string) : Exc (value Z) :=
  Return (Obj [("results", Arr [])]).

Definition failing_oracle (_ : string) : Exc (value Z) :=
  Throw (ErrorObject "fetch failed").

(** Results whose messages hold quotes, a comma and a line break. *)
Definition quoted_results : list (list (string * value Z)) :=
  [ [("campaignMessage", Str ("Say " ++ dq ++ "yes" ++ dq ++ ", today")); ("score", Num 4%Z)];
    [("campaignMessage", Str ("Two" ++ nl ++ "lines")); ("score", Num 3%Z)] ].

End OnIntegers.

(** ** Vocabulary of the statements *)

Definition required_fields : list string :=
  ["campaigns"; "keywords"; "ctas"; "objective"; "details"].

Definition objectives : list string :=
  ["awareness"; "consideration"; "sales"; "loyalty"].

Section Observations.
Context {number : Type} `{Builtins number}.

Local Abbreviation value := (value number).

(** The value has an own property of that name. *)
Definition has_property (v : value) (k : string) : bool :=
  match v with
  | Obj props => existsb (fun kv => fst kv =? k) props
  | _ => false
  end.

(** The response carries a JSON object with that field. *)
Definition body_has (r : Response number) (k : string) : bool :=
  match payload r with
  | inl v => has_property v k
  | inr _ => false
  end.

Definition nullish (v : value) : bool :=
  match v with
  | Undefined | Null => true
  | _ => false
  end.

(** The oracle's answer to a prompt is unusable: it threw, or the parsed
    document has no truthy [results]. *)
Definition oracle_failed (oracle : string -> Exc value) (p : string) : bool :=
  match oracle p with
  | Throw _ => true
  | Return j => negb (ToBoolean j && ToBoolean (get j "results"))
  end.

(** The request passes the method guard, the credential guard and the
    validation of the five fields. *)
Definition accepted (API_KEY : option string) (req : Request number) : bool :=
  (method req =? "POST") && negb (key_missing API_KEY)
  && negb (nullish (body req))
  && ToBoolean (get (body req) "campaigns")
  && ToBoolean (get (body req) "keywords")
  && ToBoolean (get (body req) "ctas")
  && ToBoolean (get (body req) "objective")
  && ToBoolean (get (body req) "details").

(** The prompt assembled from the fields of a request body. *)
Definition request_prompt (req : Request number) : Exc string :=
  assemble_prompt (get (body req) "campaigns") (get (body req) "keywords")
                  (get (body req) "ctas") (get (body req) "objective")
                  (get (body req) "details").

(** The 500 response of the [catch] clause. *)
Definition failed_to_analyze (e : thrown) : Response number :=
  json 500 (Obj [("error", Str "Failed to analyze campaigns.");
                 ("details", Str (errorMessage e))]).

(** Two call-to-action objects with the same text field. *)
Definition same_cta_text (a b : value) : Prop :=
  match a, b with
  | Obj pa, Obj pb => lookup pa "CTA Text" = lookup pb "CTA Text"
  | _, _ => False
  end.
End Observations.

Definition count_quotes (s : string) : nat :=
  List.length (filter (fun c => Ascii.eqb c dq_char) (list_ascii_of_string s)).

(** A field text between quotes, and a row of such fields. *)
Definition quote_text (s : string) : string := dq ++ double_quotes s ++ dq.

Definition row_text (r : list string) : string := join "," (map quote_text r).

(** The text that follows a field of an exported row: the remaining fields
    of the row, then [k]. *)
Fixpoint row_cont (fs : list string) (k : string) : string :=
  match fs with
  | [] => k
  | f :: fs' => "," ++ dq ++ double_quotes f ++ dq ++ row_cont fs' k
  end.

(** The text that follows an exported row: the remaining rows. *)
Fixpoint rows_cont (rs : list (list string)) : string :=
  match rs with
  | [] => ""
  | [] :: rs' => nl ++ rows_cont rs'
  | (f :: fs) :: rs' => nl ++ dq ++ double_quotes f ++ dq ++ row_cont fs (rows_cont rs')
  end.

(** ** The client ([services/geminiService.ts]) *)

(** What the client's [catch] clause reads of a rejection: the message of
    an [Error], or [String(v)] of any other thrown value. *)
Inductive rejection : Type :=
| RejectedError (message : string)
| RejectedOther (shown : string).

Definition rejection_text (r : rejection) : string :=
  match r with
  | RejectedError message => message
  | RejectedOther shown => shown
  end.

(** A [fetch] response as the client consults it: [response.status] and
    the outcome of [response.json()]; [response.ok] holds for the statuses
    200 to 299. *)
Record HttpResponse (number : Type) : Type := mkHttpResponse {
  http_status : Z;
  http_json : value number + rejection
}.

Arguments mkHttpResponse {number} http_status http_json.
Arguments http_status {number} h.
Arguments http_json {number} h.

Definition http_ok {number : Type} (r : HttpResponse number) : bool :=
  (200 <=? http_status r)%Z && (http_status r <=? 299)%Z.

(** [String(n)] for an integer status code. *)
Definition status_text (code : Z) : string := NilZero.string_of_int (Z.to_int code).

(** The message of the [Error] that the outer [catch] clause throws. *)
Definition communication_failure (detail : string) : string :=
  "Failed to communicate with the analysis service. Please try again later. Details: "
  ++ detail.

Definition unknown_server_error : string := "An unknown error occurred on the server.".

Section Client.
Context {number : Type} `{Builtins number}.

Local Abbreviation value := (value number).

(** The body the client posts. *)
Definition client_body (campaigns keywords ctas objective details : value) : value :=
  Obj [("campaigns", campaigns); ("keywords", keywords); ("ctas", ctas);
       ("objective", objective); ("details", details)].

(** The message of [new Error(errorData.error || ...)] for a response that
    is not ok, or of the [TypeError] thrown on the way: reading [error] off
    [null], or converting a truthy [error] that has no text. *)
Definition server_error_message (response : HttpResponse number) : string :=
  let errorData :=
    match http_json response with
    | inl v => v
    | inr _ => Obj [("error", Str unknown_server_error)]
    end in
  match errorData with
  | Undefined => "Cannot read properties of undefined (reading 'error')"
  | Null => "Cannot read properties of null (reading 'error')"
  | _ =>
      if ToBoolean (get errorData "error")
      then match ToString (get errorData "error") with
           | Return message => message
           | Throw e => errorMessage e
           end
      else "Server responded with status: " ++ status_text (http_status response)
  end.

(** What the client does with a response: the parsed body of an ok
    response, or the message of the [Error] it throws. *)
Definition read_response (response : HttpResponse number) : value + string :=
  if negb (http_ok response)
  then inr (communication_failure (server_error_message response))
  else match http_json response with
       | inl results => inl results
       | inr r => inr (communication_failure (rejection_text r))
       end.

(** [fetch] stands for the POST to [/api/analyze] with the given body text:
    it answers with a response or rejects.  The result is the value the
    returned promise resolves to, or the message of the [Error] it rejects
    with. *)
Definition analyzeCampaignsWithGemini
    (fetch : string -> HttpResponse number + rejection)
    (campaigns keywords ctas objective details : value) : value + string :=
  match fetch (JSON_stringify (client_body campaigns keywords ctas objective details)) with
  | inr r => inr (communication_failure (rejection_text r))
  | inl response => read_response response
  end.


(** The response the handler derives from the oracle's answer to a
    prompt. *)
Definition read_answer (oracle : string -> Exc value) (p : string) : Response number :=
  match oracle p with
  | Return j =>
      if ToBoolean j && ToBoolean (get j "results")
      then json 200 (get j "results")
      else failed_to_analyze (ErrorObject "Invalid response structure from Gemini API.")
  | Throw e => failed_to_analyze e
  end.

(** [ctas.map(c => c['CTA Text'])] throws on this value. *)
Definition ctas_unreadable (ctas : value) : bool :=
  match ctas with
  | Arr items => existsb nullish items
  | _ => true
  end.
End Client.

(** ** Score colours and the recommendation badge ([ScoreCard],
    [ResultsTable]) *)

(** A number as a comparison with a decimal literal sees it: not a number,
    an infinity, or a finite double with its exact value. *)
Inductive jsnumber : Type :=
| NotANumber
| NegInfinity
| PosInfinity
| Finite (q : Q).

(** [x >= c] for a literal [c]. *)
Definition ge_literal (x : jsnumber) (c : Q) : bool :=
  match x with
  | NotANumber | NegInfinity => false
  | PosInfinity => true
  | Finite q => Qle_bool c q
  end.

Definition getScoreColor (x : jsnumber) : string :=
  if ge_literal x 4 then "text-green-500"
  else if ge_literal x 3 then "text-yellow-500"
  else "text-red-500".

Definition badge_green : string :=
  "bg-green-100 text-green-800 dark:bg-green-900/50 dark:text-green-300".
Definition badge_yellow : string :=
  "bg-yellow-100 text-yellow-800 dark:bg-yellow-800/50 dark:text-yellow-300".
Definition badge_red : string :=
  "bg-red-100 text-red-800 dark:bg-red-900/50 dark:text-red-300".

(** [colorClasses] of [RecommendationBadge].  Texts are sequences of UTF-8
    bytes here; on well-formed text [startsWith] and the byte prefix
    agree. *)
Definition colorClasses (recommendation : string) : string :=
  if String.prefix "✅" recommendation then badge_green
  else if String.prefix "⚠️" recommendation then badge_yellow
  else badge_red.

(** The [className] of the badge. *)
Definition RecommendationBadge (recommendation : string) : string :=
  "px-3 py-1 text-xs font-medium rounded-full inline-block" ++ " "
  ++ colorClasses recommendation.

(** The label the prompt asks for in a tier: marker, space, wording. *)
Definition prompt_label (t : Aggregation.Tier) : string :=
  Aggregation.tier_marker t ++ " " ++ Aggregation.tier_text t.

(** ** The results table ([ResultsTable]) *)

Definition scoreExplanations : list (string * string) :=
  [ ("Confidence Score",
     "The overall AI-powered prediction of this campaign's success, calculated as a weighted average of all other scores.");
    ("Emotion",
     "The raw emotional tone of the message. A high score is very positive (e.g., joy), while a low score is negative (e.g., fear, anger).");
    ("Clarity & Impact",
     "Measures how powerfully and clearly the message is written. High scores go to concise, impactful messages with strong, active language.");
    ("Relevance",
     "How well the message aligns with the trending keywords you provided. High scores mean the keywords are integrated naturally and effectively.");
    ("Shareability",
     "The message's potential to be shared on social media. It considers emotional hooks, practical value, and engaging elements.");
    ("CTA Strength",
     "The effectiveness of the Call-to-Action. High scores mean the CTA is clear, urgent, and persuasive.") ].

(** [scoreExplanations[title] || 'No description available.'], for a title
    that names no inherited member of an object. *)
Definition ScoreInfo (title : string) : string :=
  match find (fun kv => fst kv =? title) scoreExplanations with
  | Some kv => if snd kv =? "" then "No description available." else snd kv
  | None => "No description available."
  end.

Section Table.
Context {number : Type} `{Builtins number}.

Local Abbreviation value := (value number).

(** The score cards of one result, in the order of display: title, score
    read off the result, and whether the card is the primary one. *)
Definition score_cards (result : value) : list (string * value * bool) :=
  [ ("Confidence Score", get result "weightedCampaignConfidenceScore", true);
    ("Emotion", get result "combinedEmotionScore", false);
    ("Clarity & Impact", get result "clarityAndImpactScore", false);
    ("CTA Strength", get result "ctaStrengthScore", false);
    ("Relevance", get result "trendRelevanceScore", false);
    ("Shareability", get result "steppsShareabilityScore", false) ].

(** What the table shows of one result: the campaign message, the score
    cards, and the recommendation handed to the badge. *)
Definition result_view (result : value) : value * list (string * value * bool) * value :=
  (get result "campaignMessage", score_cards result, get result "recommendation").
End Table.

(** * Properties of the handler *)

Section HandlerFacts.
Context {number : Type} `{Builtins number}.
Variable oracle : string -> Exc (value number).

Local Abbreviation value := (value number).
Local Abbreviation Request := (Request number).

Lemma destructure_body (b : value) :
  nullish b = false ->
  destructure b = Return (get b "campaigns", get b "keywords", get b "ctas",
                          get b "objective", get b "details").
Proof. destruct b; simpl; intros E; try discriminate; reflexivity. Qed.

Lemma destructure_nullish (b : value) :
  nullish b = true -> exists e, destructure b = Throw e.
Proof. destruct b; simpl; intros E; try discriminate; eauto. Qed.

Lemma required_field_cases (name : string) (P : string -> Prop) :
  In name required_fields ->
  P "campaigns" -> P "keywords" -> P "ctas" -> P "objective" -> P "details" ->
  P name.
Proof.
  unfold required_fields; simpl.
  intros [E | [E | [E | [E | [E | []]]]]]; subst; auto.
Qed.

(** A falsy required field stops the [try] block at the validation. *)
Lemma try_block_rejects (req : Request) (name : string) :
  nullish (body req) = false ->
  In name required_fields ->
  ToBoolean (get (body req) name) = false ->
  try_block oracle req = (Return missing_parameters, []).
Proof.
  intros Hb Hin Hf. unfold try_block.
  rewrite (destructure_body _ Hb).
  revert Hf. pattern name.
  apply (required_field_cases name); auto; clear Hin; intros Hf; rewrite Hf; simpl;
    rewrite ?orb_true_r; reflexivity.
Qed.

(** Whatever the body, a falsy required field means no oracle call. *)
Lemma try_block_silent (req : Request) (name : string) :
  In name required_fields ->
  ToBoolean (get (body req) name) = false ->
  snd (try_block oracle req) = [].
Proof.
  intros Hin Hf. destruct (nullish (body req)) eqn:Hb.
  - destruct (destructure_nullish _ Hb) as [e He].
    unfold try_block. rewrite He. reflexivity.
  - rewrite (try_block_rejects req name Hb Hin Hf). reflexivity.
Qed.

Lemma handler_not_post (key : option string) (req : Request) :
  method req <> "POST" ->
  handler oracle key req =
    (mkResponse 405 [("Allow", ["POST"])]
                (inr ("Method " ++ method req ++ " Not Allowed")), []).
Proof.
  intros Hm. unfold handler.
  apply String.eqb_neq in Hm. rewrite Hm. reflexivity.
Qed.

Lemma handler_no_key (key : option string) (req : Request) :
  method req = "POST" ->
  key_missing key = true ->
  handler oracle key req =
    (json 500 (Obj [("error", Str "API_KEY environment variable not set on the server.")]), []).
Proof.
  intros Hm Hk. unfold handler. rewrite Hm, Hk. reflexivity.
Qed.

Lemma handler_try (key : option string) (req : Request) :
  method req = "POST" ->
  key_missing key = false ->
  handler oracle key req =
    match try_block oracle req with
    | (Return r, calls) => (r, calls)
    | (Throw e, calls) =>
        (json 500 (Obj [("error", Str "Failed to analyze campaigns.");
                        ("details", Str (errorMessage e))]), calls)
    end.
Proof.
  intros Hm Hk. unfold handler. rewrite Hm, Hk. reflexivity.
Qed.

(** The calls of the handler are those of its [try] block. *)
Lemma handler_calls (key : option string) (req : Request) :
  snd (handler oracle key req) = [] \/
  snd (handler oracle key req) = snd (try_block oracle req).
Proof.
  unfold handler.
  destruct (negb (method req =? "POST")); [left; reflexivity|].
  destruct (key_missing key); [left; reflexivity|].
  right. destruct (try_block oracle req) as [[r | e] calls]; reflexivity.
Qed.

Lemma accepted_inv (key : option string) (req : Request) :
  accepted key req = true ->
  method req = "POST" /\ key_missing key = false /\ nullish (body req) = false /\
  ToBoolean (get (body req) "campaigns") = true /\
  ToBoolean (get (body req) "keywords") = true /\
  ToBoolean (get (body req) "ctas") = true /\
  ToBoolean (get (body req) "objective") = true /\
  ToBoolean (get (body req) "details") = true.
Proof.
  unfold accepted. rewrite !andb_true_iff, !negb_true_iff, String.eqb_eq. tauto.
Qed.

(** An accepted request whose prompt assembles reaches the oracle once,
    and the response is read off the oracle's answer. *)
Lemma handler_accepted (key : option string) (req : Request) (p : string) :
  accepted key req = true ->
  request_prompt req = Return p ->
  handler oracle key req =
    (match oracle p with
     | Return j =>
         if ToBoolean j && ToBoolean (get j "results")
         then json 200 (get j "results")
         else failed_to_analyze (ErrorObject "Invalid response structure from Gemini API.")
     | Throw e => failed_to_analyze e
     end, [p]).
Proof.
  intros Ha Hp. apply accepted_inv in Ha.
  destruct Ha as (Hm & Hk & Hb & Hc & Hkw & Ht & Ho & Hd).
  rewrite (handler_try key req Hm Hk). unfold try_block.
  rewrite (destructure_body _ Hb), Hc, Hkw, Ht, Ho, Hd. simpl.
  unfold request_prompt in Hp. rewrite Hp.
  destruct (oracle p) as [j | e]; simpl; [|reflexivity].
  destruct (ToBoolean j && ToBoolean (get j "results")); reflexivity.
Qed.

(** An accepted request whose prompt assembly throws never reaches the
    oracle. *)
Lemma handler_accepted_throw (key : option string) (req : Request) (e : thrown) :
  accepted key req = true ->
  request_prompt req = Throw e ->
  handler oracle key req = (failed_to_analyze e, []).
Proof.
  intros Ha Hp. apply accepted_inv in Ha.
  destruct Ha as (Hm & Hk & Hb & Hc & Hkw & Ht & Ho & Hd).
  rewrite (handler_try key req Hm Hk). unfold try_block.
  rewrite (destructure_body _ Hb), Hc, Hkw, Ht, Ho, Hd. simpl.
  unfold request_prompt in Hp. rewrite Hp. reflexivity.
Qed.

(** C3, as amended.  For every POST request whose body lacks one of
    campaigns, keywords, ctas, objective, details, the scoring oracle is
    never invoked; and when the server credential is configured and the
    request carries a body (neither null nor undefined), the response is
    the 400 validation error. *)
Theorem missing_field_is_rejected (key : option string) (req : Request) (name : string) :
  method req = "POST" ->
  In name required_fields ->
  get (body req) name = Undefined ->
  snd (handler oracle key req) = [] /\
  (key_missing key = false -> nullish (body req) = false ->
   fst (handler oracle key req) = missing_parameters /\
   status (fst (handler oracle key req)) = 400%Z).
Proof.
  intros Hm Hin Habs.
  assert (Hf : ToBoolean (get (body req) name) = false) by (rewrite Habs; reflexivity).
  split.
  - destruct (handler_calls key req) as [E | E]; [exact E|].
    rewrite E. exact (try_block_silent req name Hin Hf).
  - intros Hk Hb. rewrite (handler_try key req Hm Hk).
    rewrite (try_block_rejects req name Hb Hin Hf). split; reflexivity.
Qed.

(** C7, as amended.  A request with a method other than POST is answered
    with status 405.  A missing credential is answered with status 500
    and a JSON body that has an error field and no details field.  A
    failure of the oracle (an exception, or an answer without usable
    results) is answered with status 500 and a JSON body that has both an
    error field and a details field. *)
Theorem error_statuses (key : option string) (req : Request) :
  (method req <> "POST" -> status (fst (handler oracle key req)) = 405%Z) /\
  (method req = "POST" -> key_missing key = true ->
   status (fst (handler oracle key req)) = 500%Z /\
   body_has (fst (handler oracle key req)) "error" = true /\
   body_has (fst (handler oracle key req)) "details" = false) /\
  (forall p, accepted key req = true -> request_prompt req = Return p ->
             oracle_failed oracle p = true ->
   status (fst (handler oracle key req)) = 500%Z /\
   body_has (fst (handler oracle key req)) "error" = true /\
   body_has (fst (handler oracle key req)) "details" = true).
Proof.
  split; [|split].
  - intros Hm. rewrite (handler_not_post key req Hm). reflexivity.
  - intros Hm Hk. rewrite (handler_no_key key req Hm Hk). repeat split.
  - intros p Ha Hp Hfail. rewrite (handler_accepted key req p Ha Hp).
    unfold oracle_failed in Hfail. destruct (oracle p) as [j | e].
    + apply negb_true_iff in Hfail. rewrite Hfail. repeat split.
    + repeat split.
Qed.

(** C2, as amended.  For every accepted request the handler answers 200
    with exactly the results value of the oracle's answer, unchanged; so
    the returned records are as many as the submitted campaigns, and in
    the same order, whenever the oracle answered with one record per
    campaign in order. *)
Theorem results_are_forwarded (key : option string) (req : Request)
    (p : string) (j : value) :
  accepted key req = true ->
  request_prompt req = Return p ->
  oracle p = Return j ->
  ToBoolean j = true ->
  ToBoolean (get j "results") = true ->
  handler oracle key req = (json 200 (get j "results"), [p]) /\
  (forall cs rs,
     get (body req) "campaigns" = Arr cs ->
     get j "results" = Arr rs ->
     map (fun r => get r "campaignMessage") rs = cs ->
     payload (fst (handler oracle key req)) = inl (Arr rs) /\
     List.length rs = List.length cs /\
     forall i c, nth_error cs i = Some c ->
                 exists r, nth_error rs i = Some r /\ get r "campaignMessage" = c).
Proof.
  intros Ha Hp Ho Hj Hr.
  assert (E : handler oracle key req = (json 200 (get j "results"), [p])).
  { rewrite (handler_accepted key req p Ha Hp), Ho, Hj, Hr. reflexivity. }
  split; [exact E|].
  intros cs rs _ Hrs Hmap. rewrite E, Hrs. split; [reflexivity|].
  subst cs. split; [symmetry; apply length_map|].
  intros i c Hi. rewrite nth_error_map in Hi.
  destruct (nth_error rs i) as [r|]; simpl in Hi; [|discriminate].
  exists r. split; [reflexivity|congruence].
Qed.

Lemma cta_texts_of_objects (ts : list value) :
  Forall (fun c => nullish c = false) ts ->
  cta_texts (Arr ts) = Return (Arr (map (fun c => get c "CTA Text") ts)).
Proof.
  intros Hts. unfold cta_texts.
  assert (E : mapE cta_text ts = Return (map (fun c => get c "CTA Text") ts)).
  { induction Hts as [| c ts Hc _ IH]; [reflexivity|].
    simpl. rewrite IH. destruct c; simpl in *; try discriminate; reflexivity. }
  rewrite E. reflexivity.
Qed.

(** Past the validation, the [try] block sends the assembled prompt. *)
Lemma try_block_asks (req : Request) (p : string) :
  nullish (body req) = false ->
  ToBoolean (get (body req) "campaigns") = true ->
  ToBoolean (get (body req) "keywords") = true ->
  ToBoolean (get (body req) "ctas") = true ->
  ToBoolean (get (body req) "objective") = true ->
  ToBoolean (get (body req) "details") = true ->
  request_prompt req = Return p ->
  snd (try_block oracle req) = [p].
Proof.
  intros Hb Hc Hkw Ht Ho Hd Hp. unfold try_block.
  rewrite (destructure_body _ Hb), Hc, Hkw, Ht, Ho, Hd. simpl.
  unfold request_prompt in Hp. rewrite Hp. reflexivity.
Qed.

(** With an empty [ctas] array the prompt assembles as soon as the
    optional details do. *)
Lemma request_prompt_parts (req : Request) (block : string) (texts : value) :
  getOptionalDetailsInstructions (get (body req) "details") = Return block ->
  cta_texts (get (body req) "ctas") = Return texts ->
  request_prompt req =
    Return (prompt (getMarketingObjectiveInstructions (get (body req) "objective"))
                   block
                   (JSON_stringify (get (body req) "campaigns"))
                   (JSON_stringify (get (body req) "keywords"))
                   (JSON_stringify texts)).
Proof.
  intros Hd Ht. unfold request_prompt, assemble_prompt.
  rewrite Hd. simpl. rewrite Ht. reflexivity.
Qed.

(** C10, as amended.  Request validation tests truthiness, not presence:
    an empty array passes the test and the empty string fails it.  A POST
    request, handled with the credential configured, whose five fields are
    all truthy (campaigns, keywords and ctas may be empty arrays) passes
    validation, and triggers one oracle call whenever its prompt
    assembles; with ctas an empty array the prompt assembles as soon as
    the optional details convert to text.  A POST request, handled with
    the credential configured, whose objective is the empty string is
    rejected with the 400 validation error and no oracle call. *)
Theorem validation_tests_truthiness (key : option string) (req : Request) :
  method req = "POST" ->
  key_missing key = false ->
  (forall field, get (body req) field = Arr [] ->
                 ToBoolean (get (body req) field) = true) /\
  (forall p,
     ToBoolean (get (body req) "campaigns") = true ->
     ToBoolean (get (body req) "keywords") = true ->
     ToBoolean (get (body req) "ctas") = true ->
     ToBoolean (get (body req) "objective") = true ->
     ToBoolean (get (body req) "details") = true ->
     request_prompt req = Return p ->
     snd (handler oracle key req) = [p]) /\
  (forall block,
     get (body req) "ctas" = Arr [] ->
     getOptionalDetailsInstructions (get (body req) "details") = Return block ->
     exists p, request_prompt req = Return p) /\
  (get (body req) "objective" = Str "" ->
   handler oracle key req = (missing_parameters, []) /\
   status (fst (handler oracle key req)) = 400%Z).
Proof.
  intros Hm Hk. split; [intros field E; rewrite E; reflexivity|].
  split; [|split].
  - intros p Hc Hkw Ht Ho Hd Hp.
    assert (Hb : nullish (body req) = false).
    { destruct (body req); simpl in *; try discriminate; reflexivity. }
    assert (Ha : accepted key req = true).
    { unfold accepted. rewrite Hm, Hk, Hb, Hc, Hkw, Ht, Ho, Hd. reflexivity. }
    rewrite (handler_accepted key req p Ha Hp). reflexivity.
  - intros block Ht Hd. eexists.
    apply (request_prompt_parts req block (Arr [])); [exact Hd|].
    rewrite Ht. reflexivity.
  - intros Ho.
    assert (Hb : nullish (body req) = false).
    { destruct (body req); simpl in *; try discriminate; reflexivity. }
    assert (E : handler oracle key req = (missing_parameters, [])).
    { rewrite (handler_try key req Hm Hk).
      rewrite (try_block_rejects req "objective" Hb); [reflexivity| |].
      - unfold required_fields; simpl; tauto.
      - rewrite Ho. reflexivity. }
    rewrite E. split; reflexivity.
Qed.



Lemma same_cta_text_read (l1 l2 : list value) :
  Forall2 same_cta_text l1 l2 ->
  mapE cta_text l1 = mapE cta_text l2.
Proof.
  induction 1 as [| a b l1 l2 Hab _ IH]; [reflexivity|].
  simpl. rewrite IH.
  destruct a, b; simpl in Hab; try contradiction.
  simpl. rewrite Hab. reflexivity.
Qed.

(** C8.  Two requests that agree on campaigns, keywords, objective and
    details, and whose call-to-action objects agree pairwise on their CTA
    Text field, whatever their other fields, assemble the same prompt;
    hence the handler sends the same prompt and gives the same response
    to both. *)
Theorem cta_noninterference (key : option string) (m : string)
    (b1 b2 : value) (l1 l2 : list value) :
  get b1 "campaigns" = get b2 "campaigns" ->
  get b1 "keywords" = get b2 "keywords" ->
  get b1 "objective" = get b2 "objective" ->
  get b1 "details" = get b2 "details" ->
  get b1 "ctas" = Arr l1 ->
  get b2 "ctas" = Arr l2 ->
  Forall2 same_cta_text l1 l2 ->
  request_prompt (mkRequest m b1) = request_prompt (mkRequest m b2) /\
  handler oracle key (mkRequest m b1) = handler oracle key (mkRequest m b2).
Proof.
  intros Hc Hkw Ho Hd H1 H2 Hl.
  assert (Hp : request_prompt (mkRequest m b1) = request_prompt (mkRequest m b2)).
  { unfold request_prompt, assemble_prompt; simpl.
    rewrite Hc, Hkw, Ho, Hd, H1, H2. unfold cta_texts.
    rewrite (same_cta_text_read l1 l2 Hl). reflexivity. }
  split; [exact Hp|].
  assert (N1 : nullish b1 = false) by (destruct b1; simpl in *; try discriminate; reflexivity).
  assert (N2 : nullish b2 = false) by (destruct b2; simpl in *; try discriminate; reflexivity).
  unfold handler; simpl.
  destruct (negb (m =? "POST")); [reflexivity|].
  destruct (key_missing key); [reflexivity|].
  unfold try_block; simpl.
  rewrite (destructure_body _ N1), (destructure_body _ N2).
  unfold request_prompt in Hp; simpl in Hp.
  rewrite Hc, Hkw, Ho, Hd, H1, H2 in *. rewrite Hp. reflexivity.
Qed.
End HandlerFacts.

(** * Properties of the CSV export *)

Lemma append_assoc (a b c : string) : (a ++ b) ++ c = a ++ (b ++ c).
Proof. induction a as [| x a IH]; simpl; [reflexivity | rewrite IH; reflexivity]. Qed.

Lemma append_empty_r (a : string) : a ++ "" = a.
Proof. induction a as [| x a IH]; simpl; [reflexivity | rewrite IH; reflexivity]. Qed.

Lemma join_cons (sep x y : string) (l : list string) :
  join sep (x :: y :: l) = x ++ sep ++ join sep (y :: l).
Proof. reflexivity. Qed.

Lemma quotes_paired_doubled (s : string) : quotes_paired (double_quotes s) = true.
Proof.
  unfold quotes_paired. induction s as [| c s IH]; [reflexivity|].
  simpl. destruct (Ascii.eqb c dq_char) eqn:E.
  - simpl. exact IH.
  - simpl. rewrite E. exact IH.
Qed.

Lemma count_quotes_doubled (s : string) :
  count_quotes (double_quotes s) = (2 * count_quotes s)%nat.
Proof.
  unfold count_quotes. induction s as [| c s IH]; [reflexivity|].
  simpl. destruct (Ascii.eqb c dq_char) eqn:E; simpl.
  - rewrite IH. simpl. lia.
  - rewrite E. exact IH.
Qed.

(** Reading a doubled field up to its closing quote gives the field back. *)
Lemma read_field (v rest : string) :
  read_rows InField (double_quotes v ++ String dq_char rest) =
    match read_rows QuoteSeen rest with
    | Some (g, gs, rs) => Some (v ++ g, gs, rs)
    | None => None
    end.
Proof.
  induction v as [| c v IH].
  - simpl. destruct (read_rows QuoteSeen rest) as [[[g gs] rs]|]; reflexivity.
  - simpl. destruct (Ascii.eqb c dq_char) eqn:E.
    + apply Ascii.eqb_eq in E. subst c. simpl. rewrite IH.
      destruct (read_rows QuoteSeen rest) as [[[g gs] rs]|]; reflexivity.
    + simpl. rewrite E, IH.
      destruct (read_rows QuoteSeen rest) as [[[g gs] rs]|]; reflexivity.
Qed.

Lemma read_row_cont (fs : list string) (k : string) (rs : list (list string)) :
  read_rows QuoteSeen k = Some ("", [], rs) ->
  read_rows QuoteSeen (row_cont fs k) = Some ("", fs, rs).
Proof.
  intros Hk. induction fs as [| f fs IH]; [exact Hk|].
  cbn [row_cont]. unfold dq at 1. cbn [append read_rows].
  change (Ascii.eqb "," dq_char) with false.
  change (Ascii.eqb "," comma_char) with true. cbn iota.
  change (Ascii.eqb dq_char dq_char) with true. cbn iota.
  unfold dq. cbn [append]. rewrite read_field, IH.
  rewrite append_empty_r. reflexivity.
Qed.

Lemma read_rows_cont (rs : list (list string)) :
  Forall (fun r => r <> []) rs ->
  read_rows QuoteSeen (rows_cont rs) = Some ("", [], rs).
Proof.
  induction 1 as [| r rs Hr _ IH]; [reflexivity|].
  destruct r as [| f fs]; [congruence|].
  cbn [rows_cont]. unfold nl, dq at 1. cbn [append read_rows].
  change (Ascii.eqb nl_char dq_char) with false.
  change (Ascii.eqb nl_char comma_char) with false.
  change (Ascii.eqb nl_char nl_char) with true. cbn iota.
  change (Ascii.eqb dq_char dq_char) with true. cbn iota.
  unfold dq. cbn [append]. rewrite read_field, (read_row_cont fs _ rs IH).
  rewrite append_empty_r. reflexivity.
Qed.

Lemma join_row_cont (f : string) (fs : list string) (k : string) :
  row_text (f :: fs) ++ k = quote_text f ++ row_cont fs k.
Proof.
  revert f. induction fs as [| g fs IH]; intros f.
  - reflexivity.
  - change (row_text (f :: g :: fs)) with (quote_text f ++ "," ++ row_text (g :: fs)).
    rewrite !append_assoc, IH. cbn [row_cont]. unfold quote_text.
    rewrite !append_assoc. reflexivity.
Qed.

Lemma join_rows_cont (f : string) (fs : list string) (rs : list (list string)) :
  Forall (fun r => r <> []) rs ->
  join nl (map row_text ((f :: fs) :: rs)) = quote_text f ++ row_cont fs (rows_cont rs).
Proof.
  intros Hrs. revert f fs. induction Hrs as [| r rs Hr _ IH]; intros f fs.
  - change (join nl (map row_text [f :: fs])) with (row_text (f :: fs)).
    rewrite <- (append_empty_r (row_text (f :: fs))). apply join_row_cont.
  - destruct r as [| g gs]; [congruence|].
    change (join nl (map row_text ((f :: fs) :: (g :: gs) :: rs)))
      with (row_text (f :: fs) ++ nl ++ join nl (map row_text ((g :: gs) :: rs))).
    rewrite IH, join_row_cont. cbn [rows_cont]. unfold quote_text.
    rewrite !append_assoc. reflexivity.
Qed.

Lemma after_header_skips (header rest : string) :
  has_newline header = false ->
  after_header (header ++ nl ++ rest) = Some rest.
Proof.
  unfold has_newline. induction header as [| c header IH]; simpl.
  - intros _. reflexivity.
  - destruct (Ascii.eqb c nl_char); simpl; [discriminate | exact IH].
Qed.

Lemma read_exported_rows (f : string) (fs : list string) (rs : list (list string)) :
  Forall (fun r => r <> []) rs ->
  read_rows FieldStart (quote_text f ++ row_cont fs (rows_cont rs)) = Some (f, fs, rs).
Proof.
  intros Hrs. unfold quote_text. rewrite !append_assoc.
  unfold dq. cbn [append read_rows].
  change (Ascii.eqb dq_char dq_char) with true. cbn iota.
  rewrite read_field, (read_row_cont fs _ rs (read_rows_cont rs Hrs)).
  rewrite append_empty_r. reflexivity.
Qed.

Lemma mapE_returns {A B : Type} (f : A -> Exc B) (l : list A) (l' : list B) :
  mapE f l = Return l' <-> Forall2 (fun a b => f a = Return b) l l'.
Proof.
  revert l'. induction l as [| a l IH]; intros l'; simpl.
  - split.
    + intros E. injection E as <-. constructor.
    + intros F. inversion F. reflexivity.
  - split.
    + destruct (f a) as [b |] eqn:Ea; simpl; [|discriminate].
      destruct (mapE f l) as [bs |] eqn:El; simpl; [|discriminate].
      intros E. injection E as <-. constructor; [exact Ea | apply IH; reflexivity].
    + intros F. inversion F as [| ? b ? bs Ea Fl]; subst.
      rewrite Ea. simpl. apply IH in Fl. rewrite Fl. reflexivity.
Qed.

Lemma mapE_total {A B : Type} (f : A -> Exc B) (l : list A) :
  Forall (fun a => exists b, f a = Return b) l -> exists l', mapE f l = Return l'.
Proof.
  induction 1 as [| a l [b Ea] _ [bs El]]; simpl; [eauto|].
  rewrite Ea, El. simpl. eauto.
Qed.

Lemma mapE_ext {A B : Type} (f g : A -> Exc B) (l : list A) :
  (forall a, f a = g a) -> mapE f l = mapE g l.
Proof.
  intros E. induction l as [| a l IH]; simpl; [reflexivity|].
  rewrite E, IH. reflexivity.
Qed.

Lemma mapE_then_map {A B C : Type} (f : A -> Exc B) (g : B -> C) (l : list A) :
  mapE (fun a => b <- f a ;; Return (g b)) l = bs <- mapE f l ;; Return (map g bs).
Proof.
  induction l as [| a l IH]; simpl; [reflexivity|].
  rewrite IH. destruct (f a) as [b |]; simpl; [|reflexivity].
  destruct (mapE f l) as [bs |]; reflexivity.
Qed.

(** The global replace, character by character. *)
Lemma double_quotes_flat_map (s : string) :
  double_quotes s =
  string_of_list_ascii
    (flat_map (fun c => if Ascii.eqb c dq_char then [dq_char; dq_char] else [c])
              (list_ascii_of_string s)).
Proof.
  induction s as [| c s IH]; [reflexivity|].
  simpl. destruct (Ascii.eqb c dq_char); simpl; rewrite IH; reflexivity.
Qed.

Section ExportFacts.
Context {number : Type} `{Builtins number}.

Local Abbreviation value := (value number).
Local Abbreviation record := (record (number := number)).

Lemma csv_row_of_texts (row : record) :
  csv_row row = texts <- mapE ToString (Object_values row) ;; Return (row_text texts).
Proof.
  unfold csv_row, row_text.
  rewrite (mapE_ext quote_field (fun v => t <- ToString v ;; Return (quote_text t)))
    by reflexivity.
  rewrite mapE_then_map.
  destruct (mapE ToString (Object_values row)); reflexivity.
Qed.

Lemma csv_rows_of_texts (data : list record) :
  mapE csv_row data = texts <- field_texts data ;; Return (map row_text texts).
Proof.
  unfold field_texts. rewrite <- mapE_then_map.
  apply mapE_ext. exact csv_row_of_texts.
Qed.

Lemma field_texts_length (data : list record) (texts : list (list string)) :
  field_texts data = Return texts -> List.length texts = List.length data.
Proof.
  intros E. apply mapE_returns in E. symmetry. exact (Forall2_length E).
Qed.

(** The conversion of a non-empty list, through the field texts. *)
Lemma convertToCSV_cons (first : record) (rest : list record) :
  convertToCSV (first :: rest) =
  texts <- field_texts (first :: rest) ;;
  Return (join "," (Object_keys first) ++ nl ++ join nl (map row_text texts)).
Proof.
  unfold convertToCSV. rewrite csv_rows_of_texts.
  destruct (field_texts (first :: rest)) as [texts | e] eqn:E; [|reflexivity].
  apply field_texts_length in E.
  destruct texts as [| r rs]; [discriminate|]. reflexivity.
Qed.

Lemma field_texts_total (data : list record) :
  Forall (fun row : record =>
            Forall (fun kv => exists text, ToString (snd kv) = Return text) row) data ->
  exists texts, field_texts data = Return texts.
Proof.
  intros Hall. unfold field_texts. apply mapE_total.
  eapply Forall_impl; [|exact Hall]. intros row Hrow.
  apply mapE_total. unfold Object_values. apply Forall_map. exact Hrow.
Qed.

(** C6, as amended.  For a non-empty result set whose field values all
    convert to text (every string and every number does) the export is a
    header row, the field names of the first record separated by commas,
    followed by a line break and one row per record in order, the rows
    separated by line breaks; a row has one field per property of its
    record, separated by commas, and a field is a quote character, the
    text of the value with every quote character written twice, and a
    quote character. *)
Theorem export_format (data : list record) (first : record) (rest : list record) :
  let quote := ascii_of_nat 34 in
  let line_break := String (ascii_of_nat 10) EmptyString in
  data = first :: rest ->
  Forall (fun row : record =>
            Forall (fun kv => exists text, ToString (snd kv) = Return text) row) data ->
  (exists rows,
     convertToCSV data =
       Return (String.concat "," (map fst first) ++ line_break
               ++ String.concat line_break rows) /\
     List.length rows = List.length data /\
     Forall2
       (fun (row : record) line =>
          exists fields,
            line = String.concat "," fields /\
            Forall2
              (fun kv field =>
                 exists text,
                   ToString (snd kv) = Return text /\
                   field =
                     String quote
                       (string_of_list_ascii
                          (flat_map (fun c => if Ascii.eqb c quote
                                              then [quote; quote] else [c])
                                    (list_ascii_of_string text))
                        ++ String quote EmptyString))
              row fields)
       data rows) /\
  (forall s : string, ToString (Str s : value) = Return s) /\
  (forall n : number, ToString (Num n : value) = Return (Number_toString n)).
Proof.
  intros quote line_break -> Hall. subst quote line_break.
  split; [|split; reflexivity].
  destruct (field_texts_total _ Hall) as [texts Ht].
  exists (map row_text texts).
  split; [rewrite convertToCSV_cons, Ht; reflexivity|].
  split; [rewrite length_map; exact (field_texts_length _ _ Ht)|].
  unfold field_texts in Ht. apply mapE_returns in Ht.
  clear Hall. induction Ht as [| row ts data' texts' Hrow _ IH]; [constructor|].
  simpl. constructor; [|exact IH].
  exists (map quote_text ts). split; [reflexivity|].
  apply mapE_returns in Hrow. unfold Object_values in Hrow.
  clear IH. revert ts Hrow. induction row as [| kv row IHrow]; intros ts Hrow.
  - inversion Hrow. constructor.
  - inversion Hrow as [| ? t ? ts' Et Hrest]; subst. simpl. constructor.
    + exists t. split; [exact Et|].
      unfold quote_text. rewrite double_quotes_flat_map. reflexivity.
    + apply IHrow. exact Hrest.
Qed.

(** C9.  The conversion reads the header from the first record: on an
    empty result list it throws, so the download fails and no file is
    produced, not even a header-only one.  It returns a text only on a
    non-empty list, and there exactly when every field value converts to
    text. *)
Theorem export_needs_a_record :
  convertToCSV ([] : list record) =
    Throw (ErrorObject "Cannot convert undefined or null to object") /\
  (forall supported,
     handleDownload supported ([] : list record) =
       Throw (ErrorObject "Cannot convert undefined or null to object")) /\
  (forall (data : list record) text, convertToCSV data = Return text -> data <> []) /\
  (forall data : list record,
     data <> [] ->
     ((exists text, convertToCSV data = Return text) <->
      (exists texts, field_texts data = Return texts))).
Proof.
  split; [reflexivity|]. split; [reflexivity|]. split.
  - intros data text E ->. discriminate.
  - intros data Hne. destruct data as [| first rest]; [congruence|].
    rewrite convertToCSV_cons.
    destruct (field_texts (first :: rest)) as [texts | e]; simpl; split.
    + intros _. eauto.
    + intros _. eauto.
    + intros [text E]. discriminate.
    + intros [texts E]. discriminate.
Qed.

Lemma field_texts_rows (data : list record) (texts : list (list string)) :
  Forall (fun r : record => r <> []) data ->
  field_texts data = Return texts ->
  Forall (fun r : list string => r <> []) texts.
Proof.
  intros Hne E. unfold field_texts in E. apply mapE_returns in E.
  induction E as [| row ts data' texts' Hrow _ IH]; [constructor|].
  inversion Hne as [| ? ? Hr Hrest]; subst.
  constructor; [|exact (IH Hrest)].
  apply mapE_returns in Hrow. intros ->. inversion Hrow as [E0 |].
  unfold Object_values in E0. symmetry in E0. apply map_eq_nil in E0. exact (Hr E0).
Qed.

(** Reading an export back gives the field texts. *)
Lemma parse_of_export (first : record) (rest : list record) (texts : list (list string)) :
  Forall (fun r : record => r <> []) (first :: rest) ->
  has_newline (join "," (Object_keys first)) = false ->
  field_texts (first :: rest) = Return texts ->
  parse_rows (join "," (Object_keys first) ++ nl ++ join nl (map row_text texts))
  = Some texts.
Proof.
  intros Hne Hhead Ht. unfold parse_rows.
  rewrite (after_header_skips _ _ Hhead).
  pose proof (field_texts_rows _ _ Hne Ht) as Hrows.
  pose proof (field_texts_length _ _ Ht) as Hlen.
  destruct texts as [| r rs]; [discriminate|].
  inversion Hrows as [| ? ? Hr Hrs]; subst.
  destruct r as [| f fs]; [congruence|].
  rewrite (join_rows_cont f fs rs Hrs), (read_exported_rows f fs rs Hrs).
  reflexivity.
Qed.

(** C5, as amended.  For every non-empty result set whose records each
    have at least one field, whose header row holds no line break and
    whose field values all convert to text, exporting and then reading the
    text back (header row split off, fields unquoted, doubled quotes made
    single) yields, record by record and field by field, the text of
    every field value as [String(value)] gives it: a string-valued field
    comes back unchanged, embedded quotes, commas and line breaks
    included; a number comes back as its text. *)
Theorem export_round_trip (data : list record) (first : record) (rest : list record)
    (texts : list (list string)) :
  data = first :: rest ->
  Forall (fun r => r <> []) data ->
  has_newline (String.concat "," (map fst first)) = false ->
  Forall2 (fun (row : record) ts =>
             Forall2 (fun kv t => ToString (snd kv) = Return t) row ts)
          data texts ->
  export_then_parse data = Some texts /\
  (forall s : string, ToString (Str s : value) = Return s) /\
  (forall n : number, ToString (Num n : value) = Return (Number_toString n)).
Proof.
  intros -> Hne Hhead Htexts. split; [|split; reflexivity].
  assert (Ht : field_texts (first :: rest) = Return texts).
  { unfold field_texts. apply mapE_returns.
    eapply Forall2_impl; [|exact Htexts]. intros row ts Hrow. simpl.
    apply mapE_returns. unfold Object_values.
    induction Hrow; simpl; constructor; assumption. }
  unfold export_then_parse. rewrite convertToCSV_cons, Ht. simpl.
  exact (parse_of_export first rest texts Hne Hhead Ht).
Qed.
End ExportFacts.

(** * Properties of the aggregation rule *)

Module AggregationFacts.
Import Aggregation.

(** The prompt of the handler words the same weights, rounding and tiers. *)
Lemma prompt_states_the_rule :
  forallb (fun '(name, _, w) => contains (weight_line name w) prompt_part5) weights = true /\
  forallb (fun t => contains (tier_line t) prompt_part5) [Strong; Good; NeedsRework] = true /\
  contains "Round the final score to two decimal places." prompt_part5 = true.
Proof. repeat split; vm_compute; reflexivity. Qed.

Lemma weighted_sum_formula (s : Scores) :
  weighted_sum s ==
    0.25 * subjectiveFit s + 0.20 * clarityAndImpact s + 0.20 * combinedEmotion s
    + 0.15 * ctaStrength s + 0.10 * trendRelevance s + 0.10 * steppsShareability s.
Proof. unfold weighted_sum, weights, weight. simpl. field. Qed.

Lemma round2_hundredths (q : Q) : exists n : Z, round2 q == n # 100.
Proof.
  exists (Qfloor (q * 100 + (1 # 2))). unfold round2.
  rewrite (Qmake_Qdiv _ 100). reflexivity.
Qed.

Lemma round2_nearest (q : Q) : Qabs (round2 q - q) <= 1 # 200.
Proof.
  unfold round2.
  pose proof (Qfloor_le (q * 100 + (1 # 2))) as Hlo.
  pose proof (Qlt_floor (q * 100 + (1 # 2))) as Hhi.
  rewrite inject_Z_plus in Hhi.
  change (inject_Z 1) with 1 in Hhi.
  set (n := inject_Z (Qfloor (q * 100 + (1 # 2)))) in *.
  assert (E : n / 100 == n * (1 # 100)) by field.
  rewrite E. apply Qabs_Qle_condition. split; lra.
Qed.

Lemma tier_cases (c : Q) :
  (4 <= c -> tier c = Strong) /\
  (3 <= c -> c < 4 -> tier c = Good) /\
  (c < 3 -> tier c = NeedsRework).
Proof.
  unfold tier. repeat split.
  - intros H4. apply Qle_bool_iff in H4. rewrite H4. reflexivity.
  - intros H3 H4. apply Qle_bool_iff in H3. rewrite H3.
    destruct (Qle_bool 4 c) eqn:E; [|reflexivity].
    apply Qle_bool_iff in E. lra.
  - intros H3.
    destruct (Qle_bool 4 c) eqn:E4; [apply Qle_bool_iff in E4; lra|].
    destruct (Qle_bool 3 c) eqn:E3; [apply Qle_bool_iff in E3; lra|].
    reflexivity.
Qed.

(** C1.  For any six component scores the composite is the weighted sum
    0.25 subjectiveFit + 0.20 clarityAndImpact + 0.20 combinedEmotion +
    0.15 ctaStrength + 0.10 trendRelevance + 0.10 steppsShareability
    rounded to two decimal places (a whole number of hundredths, at most
    half a hundredth away from the sum), and the recommendation is the
    tier of the composite: at least 4 is the first tier, from 3 up to but
    not including 4 the second, below 3 the third.  All scores 5 give
    5.00 and the first tier, all scores 3 give 3.00 and the second tier,
    all scores 2 give 2.00 and the third tier. *)
Theorem aggregation_rule :
  (forall s : Scores,
     composite s == round2 (0.25 * subjectiveFit s + 0.20 * clarityAndImpact s
                            + 0.20 * combinedEmotion s + 0.15 * ctaStrength s
                            + 0.10 * trendRelevance s + 0.10 * steppsShareability s) /\
     (exists n : Z, composite s == n # 100) /\
     Qabs (composite s - weighted_sum s) <= 1 # 200 /\
     (4 <= composite s -> recommendation s = "Strong potential to succeed") /\
     (3 <= composite s -> composite s < 4 ->
      recommendation s = "Good, but revise key elements") /\
     (composite s < 3 -> recommendation s = "Needs rework before launch")) /\
  (composite (uniform 5) == 5 /\
   recommendation (uniform 5) = "Strong potential to succeed") /\
  (composite (uniform 3) == 3 /\
   recommendation (uniform 3) = "Good, but revise key elements") /\
  (composite (uniform 2) == 2 /\
   recommendation (uniform 2) = "Needs rework before launch").
Proof.
  split.
  - intros s. split.
    { unfold composite, round2. rewrite (weighted_sum_formula s). reflexivity. }
    split; [apply round2_hundredths|].
    split; [apply round2_nearest|].
    unfold recommendation.
    destruct (tier_cases (composite s)) as (H4 & H3 & H2). repeat split.
    + intros Hc. rewrite (H4 Hc). reflexivity.
    + intros Hlo Hhi. rewrite (H3 Hlo Hhi). reflexivity.
    + intros Hc. rewrite (H2 Hc). reflexivity.
  - repeat split; vm_compute; reflexivity.
Qed.
End AggregationFacts.

(** * The model at work *)

Module Runs.
Import OnIntegers.

(** A body without keywords, handled with the credential configured. *)
Lemma missing_field_is_rejected_witness :
  let req := post (Obj [("campaigns", Arr [Str "Hello"]); ("ctas", Arr []);
                        ("objective", Str "sales"); ("details", Obj [])]) in
  method req = "POST" /\
  In "keywords" required_fields /\
  get (body req) "keywords" = Undefined /\
  snd (handler faithful_oracle (Some "secret") req) = [] /\
  status (fst (handler faithful_oracle (Some "secret") req)) = 400%Z.
Proof.
  intros req.
  assert (Hm : method req = "POST") by reflexivity.
  assert (Hin : In "keywords" required_fields) by (simpl; tauto).
  assert (Ha : get (body req) "keywords" = Undefined) by reflexivity.
  destruct (missing_field_is_rejected faithful_oracle (Some "secret") req "keywords"
              Hm Hin Ha) as [Hcalls Hresp].
  destruct (Hresp eq_refl eq_refl) as [_ Hstatus].
  exact (conj Hm (conj Hin (conj Ha (conj Hcalls Hstatus)))).
Defined.

(** C3 as stated fails: without the credential a POST request with an
    empty body object is answered 500, not 400. *)
Lemma missing_field_without_key :
  let req := post (Obj []) in
  method req = "POST" /\
  get (body req) "campaigns" = Undefined /\
  status (fst (handler faithful_oracle None req)) = 500%Z /\
  status (fst (handler faithful_oracle None req)) <> 400%Z.
Proof. repeat split. vm_compute. discriminate. Qed.

(** The sample request, answered by an oracle that scores both messages. *)
Lemma results_are_forwarded_witness :
  exists p j rs,
    accepted (Some "secret") (post sample_body) = true /\
    request_prompt (post sample_body) = Return p /\
    faithful_oracle p = Return j /\
    ToBoolean j = true /\
    ToBoolean (get j "results") = true /\
    handler faithful_oracle (Some "secret") (post sample_body) = (json 200 (Arr rs), [p]) /\
    List.length rs = 2%nat.
Proof.
  destruct (request_prompt (post sample_body)) as [p | e] eqn:Hp;
    [|vm_compute in Hp; discriminate].
  exists p, (Obj [("results", Arr [result_of "Summer sale starts now";
                                   result_of "Join our members club"])]),
         [result_of "Summer sale starts now"; result_of "Join our members club"].
  assert (Ha : accepted (Some "secret") (post sample_body) = true) by reflexivity.
  destruct (results_are_forwarded faithful_oracle (Some "secret") (post sample_body) p _
              Ha Hp eq_refl eq_refl eq_refl) as [Hh _].
  exact (conj Ha (conj eq_refl (conj eq_refl (conj eq_refl (conj eq_refl
           (conj Hh eq_refl)))))).
Defined.

(** C2 as stated fails: the request is valid and submits two campaigns,
    the oracle answers with an empty results array, and the handler
    returns that empty array with status 200. *)
Lemma results_count_not_enforced :
  accepted (Some "secret") (post sample_body) = true /\
  get sample_body "campaigns" = Arr [Str "Summer sale starts now"; Str "Join our members club"] /\
  fst (handler empty_oracle (Some "secret") (post sample_body)) = json 200 (Arr []).
Proof. repeat split. Qed.



(** C7 as stated fails: the response to a missing credential has no
    details field. *)
Lemma missing_credential_has_no_details :
  status (fst (handler faithful_oracle None (post sample_body))) = 500%Z /\
  body_has (fst (handler faithful_oracle None (post sample_body))) "error" = true /\
  body_has (fst (handler faithful_oracle None (post sample_body))) "details" = false.
Proof. repeat split. Qed.

(** The three error paths on concrete requests. *)
Lemma error_statuses_witness :
  status (fst (handler failing_oracle (Some "secret") (mkRequest "GET" sample_body))) = 405%Z /\
  body_has (fst (handler failing_oracle None (post sample_body))) "details" = false /\
  status (fst (handler failing_oracle (Some "secret") (post sample_body))) = 500%Z /\
  body_has (fst (handler failing_oracle (Some "secret") (post sample_body))) "details" = true.
Proof.
  destruct (request_prompt (post sample_body)) as [p | e] eqn:Hp;
    [|vm_compute in Hp; discriminate].
  destruct (error_statuses failing_oracle (Some "secret") (mkRequest "GET" sample_body))
    as (H405 & _ & _).
  destruct (error_statuses failing_oracle None (post sample_body)) as (_ & Hkey & _).
  destruct (error_statuses failing_oracle (Some "secret") (post sample_body))
    as (_ & _ & Horacle).
  destruct (Horacle p eq_refl Hp eq_refl) as (H500 & _ & Hdetails).
  destruct (Hkey eq_refl eq_refl) as (_ & _ & Hnone).
  assert (Hget : method (mkRequest "GET" sample_body) <> "POST") by discriminate.
  exact (conj (H405 Hget) (conj Hnone (conj H500 Hdetails))).
Defined.

(** Empty arrays pass validation; an empty objective does not. *)
Lemma validation_tests_truthiness_witness :
  let empties := post (Obj [("campaigns", Arr []); ("keywords", Arr []); ("ctas", Arr []);
                            ("objective", Str "sales"); ("details", Obj [])]) in
  let no_objective := post (Obj [("campaigns", Arr [Str "Hello"]); ("keywords", Arr []);
                                 ("ctas", Arr []); ("objective", Str "");
                                 ("details", Obj [])]) in
  method empties = "POST" /\
  key_missing (Some "secret") = false /\
  (exists p, snd (handler faithful_oracle (Some "secret") empties) = [p]) /\
  handler faithful_oracle (Some "secret") no_objective = (missing_parameters, []).
Proof.
  intros empties no_objective.
  destruct (validation_tests_truthiness faithful_oracle (Some "secret") empties
              eq_refl eq_refl) as (_ & Hcall & Hassembles & _).
  destruct (validation_tests_truthiness faithful_oracle (Some "secret") no_objective
              eq_refl eq_refl) as (_ & _ & _ & Hreject).
  destruct (Hassembles "" eq_refl eq_refl) as [p Hp].
  destruct (Hreject eq_refl) as [Hh _].
  exact (conj eq_refl (conj eq_refl
           (conj (ex_intro _ p (Hcall p eq_refl eq_refl eq_refl eq_refl eq_refl Hp)) Hh))).
Defined.

(** C10 as stated fails.  A request whose campaigns, keywords and ctas are
    empty arrays does not trigger an oracle call when another field is
    missing (400), when the credential is missing (500), when the method
    is not POST (405), or when its prompt does not assemble (500): a key
    message that is an object with an own toString property, or, with
    campaigns empty, a ctas that is no array.  A request whose objective
    is the empty string is answered 500, not 400, when the credential is
    missing. *)
Lemma validation_claim_fails :
  let with_details d : value Z :=
    Obj [("campaigns", Arr []); ("keywords", Arr []); ("ctas", Arr []);
         ("objective", Str "sales"); ("details", d)] in
  let no_details : value Z :=
    Obj [("campaigns", Arr []); ("keywords", Arr []); ("ctas", Arr []);
         ("objective", Str "sales")] in
  let no_map : value Z :=
    Obj [("campaigns", Arr []); ("keywords", Arr []); ("ctas", Str "Buy");
         ("objective", Str "sales"); ("details", Obj [])] in
  let no_objective : value Z :=
    Obj [("campaigns", Arr [Str "Hello"]); ("keywords", Arr []); ("ctas", Arr []);
         ("objective", Str ""); ("details", Obj [])] in
  handler faithful_oracle (Some "secret") (post no_details) = (missing_parameters, []) /\
  (status (fst (handler faithful_oracle None (post (with_details (Obj []))))) = 500%Z /\
   snd (handler faithful_oracle None (post (with_details (Obj [])))) = []) /\
  (status (fst (handler faithful_oracle (Some "secret")
                        (mkRequest "GET" (with_details (Obj []))))) = 405%Z /\
   snd (handler faithful_oracle (Some "secret")
                (mkRequest "GET" (with_details (Obj [])))) = []) /\
  (status (fst (handler faithful_oracle (Some "secret")
                        (post (with_details (Obj [("keyMessage",
                                                   Obj [("toString", Num 1%Z)])])))))
   = 500%Z /\
   snd (handler faithful_oracle (Some "secret")
                (post (with_details (Obj [("keyMessage",
                                           Obj [("toString", Num 1%Z)])])))) = []) /\
  (status (fst (handler faithful_oracle (Some "secret") (post no_map))) = 500%Z /\
   snd (handler faithful_oracle (Some "secret") (post no_map)) = []) /\
  status (fst (handler faithful_oracle None (post no_objective))) = 500%Z.
Proof. repeat split. Qed.

(** Two bodies that differ only in the scores and extra fields of their
    call to action. *)
Lemma cta_noninterference_witness :
  let b1 := sample_body in
  let b2 := Obj [ ("campaigns", Arr [Str "Summer sale starts now"; Str "Join our members club"]);
                  ("keywords", Arr [Str "summer"]);
                  ("ctas", Arr [Obj [("Tone Score", Num 1%Z); ("CTA Text", Str "Shop now");
                                     ("note", Str "internal")]]);
                  ("objective", Str "sales");
                  ("details", Obj [("targetAudience", Str "genz");
                                   ("keyMessage", Str "Up to 50% off")]) ] in
  b1 <> b2 /\
  request_prompt (post b1) = request_prompt (post b2) /\
  handler faithful_oracle (Some "secret") (post b1) =
  handler faithful_oracle (Some "secret") (post b2).
Proof.
  intros b1 b2. split; [discriminate|].
  apply (cta_noninterference faithful_oracle (Some "secret") "POST" b1 b2
           [Obj [("CTA Text", Str "Shop now"); ("Type Score", Num 4%Z)]]
           [Obj [("Tone Score", Num 1%Z); ("CTA Text", Str "Shop now");
                 ("note", Str "internal")]]);
    try reflexivity.
  constructor; [reflexivity | constructor].
Defined.

Lemma export_format_witness :
  exists rows,
    convertToCSV quoted_results =
      Return ("campaignMessage,score" ++ nl ++ join nl rows) /\
    List.length rows = 2%nat.
Proof.
  assert (Hall : Forall (fun row : list (string * value Z) =>
                           Forall (fun kv => exists text, ToString (snd kv) = Return text)
                                  row) quoted_results).
  { repeat constructor; simpl; eauto. }
  destruct (export_format quoted_results _ _ eq_refl Hall)
    as ((rows & Htext & Hlen & _) & _).
  cbv zeta in Htext.
  exists rows. exact (conj Htext Hlen).
Defined.

(** C6 as stated fails: a non-empty result set with a value that is an
    object with an own toString property has no exported text, the
    conversion throws. *)
Lemma export_of_unconvertible_value :
  convertToCSV [[("campaignMessage", Str "Hello");
                 ("subjectiveFitScore", Obj [("toString", Num 1%Z)])]]
  = Throw (ErrorObject "Cannot convert object to primitive value").
Proof. reflexivity. Qed.

Lemma export_round_trip_witness :
  export_then_parse quoted_results =
    Some [ ["Say " ++ dq ++ "yes" ++ dq ++ ", today"; "4"];
           ["Two" ++ nl ++ "lines"; "3"] ].
Proof.
  assert (Hne : Forall (fun r : list (string * value Z) => r <> []) quoted_results)
    by (repeat constructor; discriminate).
  assert (Htexts : Forall2 (fun (row : list (string * value Z)) ts =>
                              Forall2 (fun kv t => ToString (snd kv) = Return t) row ts)
                           quoted_results
                           [ ["Say " ++ dq ++ "yes" ++ dq ++ ", today"; "4"];
                             ["Two" ++ nl ++ "lines"; "3"] ]).
  { repeat constructor. }
  destruct (export_round_trip quoted_results _ _ _ eq_refl Hne eq_refl Htexts)
    as [Hparse _].
  exact Hparse.
Defined.

(** C5 as stated fails, in five ways.  An empty result set has no export
    to read back.  A value that is an object with an own toString property
    makes the export throw.  A number comes back as its text, not as the
    number.  A record without fields exports as an empty row, which reads
    back as no record.  A field name with a line break splits the header
    row, and the rest does not read as rows. *)
Lemma round_trip_fails :
  export_then_parse ([] : list (list (string * value Z))) = None /\
  export_then_parse [[("score", Obj [("toString", Num 1%Z)])]] = None /\
  (export_then_parse [[("score", Num 4%Z)]] = Some [["4"]] /\
   map (map Str) [["4"]] <> map Object_values [[("score", Num 4%Z)]]) /\
  export_then_parse ([[]] : list (list (string * value Z))) = None /\
  export_then_parse [[("first" ++ nl ++ "second", Str "Hello" : value Z)]] = None.
Proof. repeat split. discriminate. Qed.
End Runs.


(** * Further properties of the handler *)

Section HandlerRuns.
Context {number : Type} `{Builtins number}.

Local Abbreviation value := (value number).
Local Abbreviation Request := (Request number).

(** Every run of the handler takes one of six paths. *)
Lemma handler_cases (oracle : string -> Exc value) (key : option string) (req : Request) :
  (method req <> "POST" /\
   handler oracle key req =
     (mkResponse 405 [("Allow", ["POST"])]
                 (inr ("Method " ++ method req ++ " Not Allowed")), [])) \/
  (method req = "POST" /\ key_missing key = true /\
   handler oracle key req =
     (json 500 (Obj [("error", Str "API_KEY environment variable not set on the server.")]), [])) \/
  (method req = "POST" /\ key_missing key = false /\ nullish (body req) = true /\
   exists e, handler oracle key req = (failed_to_analyze e, [])) \/
  (method req = "POST" /\ key_missing key = false /\ nullish (body req) = false /\
   accepted key req = false /\
   handler oracle key req = (missing_parameters, [])) \/
  (accepted key req = true /\
   exists e, request_prompt req = Throw e /\
             handler oracle key req = (failed_to_analyze e, [])) \/
  (accepted key req = true /\
   exists p, request_prompt req = Return p /\
             handler oracle key req = (read_answer oracle p, [p])).
Proof.
  destruct (String.eqb_spec (method req) "POST") as [Hm | Hm].
  2: { left. split; [exact Hm | apply handler_not_post; exact Hm]. }
  right. destruct (key_missing key) eqn:Hk.
  { left. split; [exact Hm|]. split; [reflexivity|]. apply handler_no_key; assumption. }
  right. destruct (nullish (body req)) eqn:Hb.
  { left. split; [exact Hm|]. split; [reflexivity|]. split; [reflexivity|].
    destruct (destructure_nullish _ Hb) as [e He]. exists e.
    rewrite (handler_try oracle key req Hm Hk). unfold try_block. rewrite He. reflexivity. }
  right. destruct (accepted key req) eqn:Ha.
  - right. destruct (request_prompt req) as [p | e] eqn:Hp.
    + right. split; [reflexivity|]. exists p. split; [reflexivity|].
      unfold read_answer. apply handler_accepted; assumption.
    + left. split; [reflexivity|]. exists e. split; [reflexivity|].
      apply handler_accepted_throw; assumption.
  - left. split; [exact Hm|]. split; [reflexivity|]. split; [reflexivity|].
    split; [reflexivity|].
    rewrite (handler_try oracle key req Hm Hk).
    unfold accepted in Ha. rewrite Hm, Hk, Hb in Ha. simpl in Ha.
    assert (Hfalsy : exists name, In name required_fields /\
                                  ToBoolean (get (body req) name) = false).
    { unfold required_fields.
      destruct (ToBoolean (get (body req) "campaigns")) eqn:E1;
        [|exists "campaigns"; simpl; tauto].
      destruct (ToBoolean (get (body req) "keywords")) eqn:E2;
        [|exists "keywords"; simpl; tauto].
      destruct (ToBoolean (get (body req) "ctas")) eqn:E3;
        [|exists "ctas"; simpl; tauto].
      destruct (ToBoolean (get (body req) "objective")) eqn:E4;
        [|exists "objective"; simpl; tauto].
      destruct (ToBoolean (get (body req) "details")) eqn:E5;
        [|exists "details"; simpl; tauto].
      simpl in Ha. discriminate. }
    destruct Hfalsy as (name & Hin & Hf).
    rewrite (try_block_rejects oracle req name Hb Hin Hf). reflexivity.
Qed.

Lemma read_answer_status (oracle : string -> Exc value) (p : string) :
  status (read_answer oracle p) = 200%Z \/ status (read_answer oracle p) = 500%Z.
Proof.
  unfold read_answer. destruct (oracle p) as [j | e]; [|right; reflexivity].
  destruct (ToBoolean j && ToBoolean (get j "results")); [left | right]; reflexivity.
Qed.

(** X1.  The handler consults the oracle at most once per request: there is
    no retry, whatever the oracle answers. *)
Theorem at_most_one_oracle_call (oracle : string -> Exc value)
    (key : option string) (req : Request) :
  (List.length (snd (handler oracle key req)) <= 1)%nat.
Proof.
  destruct (handler_cases oracle key req)
    as [[_ E] | [(_ & _ & E) | [(_ & _ & _ & e & E) | [(_ & _ & _ & _ & E)
       | [(_ & e & _ & E) | (_ & p & _ & E)]]]]];
    rewrite E; simpl; lia.
Qed.

(** X2.  Every response has status 200, 400, 405 or 500. *)
Theorem handler_statuses (oracle : string -> Exc value)
    (key : option string) (req : Request) :
  In (status (fst (handler oracle key req))) [200; 400; 405; 500]%Z.
Proof.
  destruct (handler_cases oracle key req)
    as [[_ E] | [(_ & _ & E) | [(_ & _ & _ & e & E) | [(_ & _ & _ & _ & E)
       | [(_ & e & _ & E) | (_ & p & _ & E)]]]]];
    rewrite E; simpl; try tauto.
  destruct (read_answer_status oracle p) as [S | S]; rewrite S; tauto.
Qed.

(** X3.  A 200 response is never made up by the handler: it occurs only
    for an accepted request whose prompt was sent to the oracle exactly
    once, and it carries the truthy results value of the oracle's answer. *)
Theorem success_comes_from_the_oracle (oracle : string -> Exc value)
    (key : option string) (req : Request) :
  status (fst (handler oracle key req)) = 200%Z ->
  exists p j,
    accepted key req = true /\
    request_prompt req = Return p /\
    oracle p = Return j /\
    ToBoolean (get j "results") = true /\
    handler oracle key req = (json 200 (get j "results"), [p]).
Proof.
  intros Hs.
  destruct (handler_cases oracle key req)
    as [[_ E] | [(_ & _ & E) | [(_ & _ & _ & e & E) | [(_ & _ & _ & _ & E)
       | [(_ & e & _ & E) | (Ha & p & Hp & E)]]]]];
    rewrite E in Hs; simpl in Hs; try discriminate.
  unfold read_answer in *. destruct (oracle p) as [j | e] eqn:Ho; [|discriminate].
  destruct (ToBoolean j && ToBoolean (get j "results")) eqn:Hj; [|discriminate].
  apply andb_true_iff in Hj. exists p, j. tauto.
Qed.

(** X4.  A POST request that carries no body (null or undefined), handled
    with the credential configured, is not answered with the 400
    validation error: the destructuring throws, the catch clause answers
    500 with error and details, and the oracle is not called. *)
Theorem missing_body_is_a_server_error (oracle : string -> Exc value)
    (key : option string) (req : Request) :
  method req = "POST" ->
  key_missing key = false ->
  nullish (body req) = true ->
  status (fst (handler oracle key req)) = 500%Z /\
  body_has (fst (handler oracle key req)) "error" = true /\
  body_has (fst (handler oracle key req)) "details" = true /\
  snd (handler oracle key req) = [].
Proof.
  intros Hm Hk Hb. destruct (destructure_nullish _ Hb) as [e He].
  rewrite (handler_try oracle key req Hm Hk). unfold try_block. rewrite He.
  repeat split.
Qed.

Lemma cta_text_reads (c : value) :
  nullish c = false -> cta_text c = Return (get c "CTA Text").
Proof. destruct c; simpl; intros E; try discriminate; reflexivity. Qed.

Lemma cta_text_throws (c : value) :
  nullish c = true -> exists e, cta_text c = Throw e.
Proof. destruct c; simpl; intros E; try discriminate; eauto. Qed.

Lemma cta_texts_throws (ctas : value) :
  ctas_unreadable ctas = true <-> exists e, cta_texts ctas = Throw e.
Proof.
  destruct ctas as [| | b | n | s | items | props]; simpl;
    try (split; [intros _; eauto | reflexivity]).
  assert (E : forall l : list value,
             (existsb nullish l = true -> exists e, mapE cta_text l = Throw e) /\
             (existsb nullish l = false -> exists ts, mapE cta_text l = Return ts)).
  { induction l as [| c l [IHt IHf]]; simpl.
    - split; [discriminate | eauto].
    - destruct (nullish c) eqn:Hc; simpl.
      + split; [|discriminate]. intros _.
        destruct (cta_text_throws c Hc) as [e He]. rewrite He. simpl. eauto.
      + rewrite (cta_text_reads c Hc). simpl. split.
        * intros Hl. destruct (IHt Hl) as [e He]. rewrite He. simpl. eauto.
        * intros Hl. destruct (IHf Hl) as [ts Hts]. rewrite Hts. simpl. eauto. }
  destruct (E items) as [Et Ef]. split.
  - intros Hu. destruct (Et Hu) as [e He]. rewrite He. simpl. eauto.
  - intros [e He]. destruct (existsb nullish items) eqn:Hu; [reflexivity|].
    destruct (Ef eq_refl) as [ts Hts]. rewrite Hts in He. simpl in He. discriminate.
Qed.

Lemma request_prompt_throws (req : Request) :
  (exists e, request_prompt req = Throw e) <->
  (exists e, getOptionalDetailsInstructions (get (body req) "details") = Throw e) \/
  ctas_unreadable (get (body req) "ctas") = true.
Proof.
  rewrite cta_texts_throws. unfold request_prompt, assemble_prompt.
  destruct (getOptionalDetailsInstructions (get (body req) "details")) as [block | e];
    simpl.
  - destruct (cta_texts (get (body req) "ctas")) as [texts | e]; simpl; split.
    + intros [e E]. discriminate.
    + intros [[e E] | [e E]]; discriminate.
    + intros _. right. eauto.
    + intros _. eauto.
  - split; intros _; eauto.
Qed.

(** X5.  Among accepted requests the oracle is reached exactly by those
    whose prompt assembles: the optional details convert to text and ctas
    is an array without null elements.  A detail that is an object with an
    own toString property makes the template throw, and any other truthy
    ctas (a string, a number, an object, an array holding null) makes the
    mapping throw: the answer is 500 with details and no prompt is sent. *)
Theorem unreadable_ctas_stop_the_request (oracle : string -> Exc value)
    (key : option string) (req : Request) :
  accepted key req = true ->
  (snd (handler oracle key req) = [] <->
   (exists e, getOptionalDetailsInstructions (get (body req) "details") = Throw e) \/
   ctas_unreadable (get (body req) "ctas") = true) /\
  ((exists e, getOptionalDetailsInstructions (get (body req) "details") = Throw e) \/
   ctas_unreadable (get (body req) "ctas") = true ->
   status (fst (handler oracle key req)) = 500%Z /\
   body_has (fst (handler oracle key req)) "details" = true).
Proof.
  intros Ha. rewrite <- request_prompt_throws. split; [split|].
  - intros Hcalls. destruct (request_prompt req) as [p | e] eqn:E; [|eauto].
    rewrite (handler_accepted oracle key req p Ha E) in Hcalls. discriminate.
  - intros [e He]. rewrite (handler_accepted_throw oracle key req e Ha He). reflexivity.
  - intros [e He]. rewrite (handler_accepted_throw oracle key req e Ha He).
    split; reflexivity.
Qed.

(** X6.  The oracle influences a response only through its answer to the
    prompt it was sent: two oracles are sent the same prompts by the same
    request, and when no prompt is sent the two responses are equal. *)
Theorem oracle_matters_only_when_called (o1 o2 : string -> Exc value)
    (key : option string) (req : Request) :
  snd (handler o1 key req) = snd (handler o2 key req) /\
  (snd (handler o1 key req) = [] -> handler o1 key req = handler o2 key req) /\
  (forall p, snd (handler o1 key req) = [p] -> o1 p = o2 p ->
             handler o1 key req = handler o2 key req).
Proof.
  destruct (handler_cases o1 key req)
    as [[Hm E] | [(Hm & Hk & E) | [(Hm & Hk & Hb & e & E) | [(Hm & Hk & Hb & Ha & E)
       | [(Ha & e & Hp & E) | (Ha & p & Hp & E)]]]]].
  - rewrite E, (handler_not_post o2 key req Hm). repeat split.
  - rewrite E, (handler_no_key o2 key req Hm Hk). repeat split.
  - destruct (destructure_nullish _ Hb) as [e' He'].
    assert (E' : forall o, handler o key req = (failed_to_analyze e', [])).
    { intros o. rewrite (handler_try o key req Hm Hk).
      unfold try_block. rewrite He'. reflexivity. }
    rewrite !E'. repeat split.
  - assert (E2 : handler o2 key req = (missing_parameters, [])).
    { destruct (handler_cases o2 key req)
        as [[Hm' _] | [(_ & Hk' & _) | [(_ & _ & Hb' & _) | [(_ & _ & _ & _ & E')
           | [(Ha' & _) | (Ha' & _)]]]]]; congruence. }
    rewrite E, E2. repeat split.
  - rewrite E, (handler_accepted_throw o2 key req e Ha Hp). repeat split.
  - rewrite E, (handler_accepted o2 key req p Ha Hp). simpl.
    split; [reflexivity|]. split; [discriminate|].
    intros p' Hp' Ho. injection Hp' as <-. unfold read_answer. rewrite Ho. reflexivity.
Qed.
End HandlerRuns.

(** * Properties of the prompt *)

Lemma prefix_append (n b : string) : String.prefix n (n ++ b) = true.
Proof.
  induction n as [| c n IH]; simpl.
  - destruct b; reflexivity.
  - destruct (ascii_dec c c) as [_ | N]; [exact IH | congruence].
Qed.

Lemma prefix_extend (n x b : string) :
  String.prefix n x = true -> String.prefix n (x ++ b) = true.
Proof.
  revert n. induction x as [| c x IH]; intros n; simpl.
  - destruct n; [destruct b; reflexivity | discriminate].
  - destruct n as [| a n]; [reflexivity|].
    destruct (ascii_dec a c); [apply IH | discriminate].
Qed.

Lemma contains_prefix (n h : string) :
  String.prefix n h = true -> contains n h = true.
Proof. intros P. destruct h; simpl in *; rewrite P; reflexivity. Qed.

Lemma contains_here (n b : string) : contains n (n ++ b) = true.
Proof. apply contains_prefix, prefix_append. Qed.

Lemma contains_later (a n x : string) :
  contains n x = true -> contains n (a ++ x) = true.
Proof.
  intros Hx. induction a as [| c a IH]; [exact Hx|].
  change (contains n (String c a ++ x))
    with (if String.prefix n (String c (a ++ x)) then true else contains n (a ++ x)).
  rewrite IH. destruct (String.prefix n (String c (a ++ x))); reflexivity.
Qed.

Lemma contains_extend (n x b : string) :
  contains n x = true -> contains n (x ++ b) = true.
Proof.
  induction x as [| c x IH]; simpl.
  - destruct n; [intros _; destruct b; reflexivity | discriminate].
  - destruct n as [| a n]; [reflexivity|].
    destruct (ascii_dec a c) as [-> | N].
    + destruct (String.prefix n x) eqn:P.
      * intros _. rewrite (prefix_extend n x b P). reflexivity.
      * intros Hx. rewrite (IH Hx). destruct (String.prefix n (x ++ b)); reflexivity.
    + exact IH.
Qed.

Lemma contains_middle (a n b : string) : contains n (a ++ n ++ b) = true.
Proof. apply contains_later, contains_here. Qed.

Lemma contains_end (a n : string) : contains n (a ++ n) = true.
Proof.
  apply contains_later. rewrite <- (append_empty_r n) at 2. apply contains_here.
Qed.

Lemma contains_self (n : string) : contains n n = true.
Proof. rewrite <- (append_empty_r n) at 2. apply contains_here. Qed.

Section PromptFacts.
Context {number : Type} `{Builtins number}.

Local Abbreviation value := (value number).
Local Abbreviation Request := (Request number).

Lemma nonempty_not_eqb (s : string) : s <> "" -> (s =? "") = false.
Proof. intros Hs. apply String.eqb_neq. exact Hs. Qed.

Ltac details_cases details :=
  unfold getOptionalDetailsInstructions, add_line;
  destruct (ToBoolean (getAudienceText details));
    [destruct (ToString (getAudienceText details)) as [ta | ea] |];
  (destruct (ToBoolean (getBrandToneText details));
    [destruct (ToString (getBrandToneText details)) as [tb | eb] |]);
  (destruct (ToBoolean (get details "keyMessage"));
    [destruct (ToString (get details "keyMessage")) as [tk | ek] |]);
  cbn [bindE].

Lemma details_block_empty (details : value) :
  getOptionalDetailsInstructions details = Return "" <->
  ToBoolean (getAudienceText details) = false /\
  ToBoolean (getBrandToneText details) = false /\
  ToBoolean (get details "keyMessage") = false.
Proof.
  details_cases details;
    (split; [| intros (A & B & C); try discriminate; reflexivity]);
    try (intros _; repeat split; reflexivity);
    try discriminate;
    unfold details_tpl0_part0, details_tpl1_part0, details_tpl2_part0, details_tpl3_part0;
    simpl; discriminate.
Qed.

Lemma details_block_heading (details : value) (block : string) :
  getOptionalDetailsInstructions details = Return block ->
  block <> "" ->
  String.prefix details_tpl3_part0 block = true.
Proof.
  details_cases details; try discriminate;
    (match goal with
     | |- (if ?c then _ else _) = _ -> _ => destruct c
     end);
    (match goal with
     | |- Return ?X = Return _ -> _ =>
         intros E N; assert (B : block = X) by congruence;
         first [congruence | rewrite B; apply prefix_append]
     end).
Qed.

Lemma details_block_throws (details : value) :
  (exists e, getOptionalDetailsInstructions details = Throw e) <->
  (ToBoolean (getAudienceText details) = true /\
   exists e, ToString (getAudienceText details) = Throw e) \/
  (ToBoolean (getBrandToneText details) = true /\
   exists e, ToString (getBrandToneText details) = Throw e) \/
  (ToBoolean (get details "keyMessage") = true /\
   exists e, ToString (get details "keyMessage") = Throw e).
Proof.
  details_cases details;
    (split;
     [ intros [e E];
       try (match type of E with
            | (if ?c then _ else _) = _ => destruct c
            end);
       try discriminate E;
       first [ left; split; [reflexivity | eexists; reflexivity]
             | right; left; split; [reflexivity | eexists; reflexivity]
             | right; right; split; [reflexivity | eexists; reflexivity] ]
     | intros [[T [e E]] | [[T [e E]] | [T [e E]]]];
       try discriminate T; try discriminate E; eexists; reflexivity ]).
Qed.

(** X7.  The optional details block is the empty text exactly when the
    request gives no usable audience, no usable brand tone and no key
    message; a block that is returned and not empty opens with the fixed
    heading; and the function throws exactly when a usable audience text,
    brand tone text or key message does not convert to text. *)
Theorem details_block_empty_iff (details : value) :
  (getOptionalDetailsInstructions details = Return "" <->
   ToBoolean (getAudienceText details) = false /\
   ToBoolean (getBrandToneText details) = false /\
   ToBoolean (get details "keyMessage") = false) /\
  (forall block,
     getOptionalDetailsInstructions details = Return block -> block <> "" ->
     String.prefix details_tpl3_part0 block = true) /\
  ((exists e, getOptionalDetailsInstructions details = Throw e) <->
   (ToBoolean (getAudienceText details) = true /\
    exists e, ToString (getAudienceText details) = Throw e) \/
   (ToBoolean (getBrandToneText details) = true /\
    exists e, ToString (getBrandToneText details) = Throw e) \/
   (ToBoolean (get details "keyMessage") = true /\
    exists e, ToString (get details "keyMessage") = Throw e)).
Proof.
  split; [apply details_block_empty|].
  split; [apply details_block_heading | apply details_block_throws].
Qed.

Lemma audience_text_dependence (d1 d2 : value) :
  get d1 "targetAudience" = get d2 "targetAudience" ->
  (strict_eq_string (get d1 "targetAudience") "custom" = true ->
   get d1 "customTargetAudience" = get d2 "customTargetAudience") ->
  getAudienceText d1 = getAudienceText d2.
Proof.
  intros Ht Hc. unfold getAudienceText. rewrite <- Ht.
  destruct (ToBoolean (get d1 "targetAudience")); simpl; [|reflexivity].
  destruct (strict_eq_string (get d1 "targetAudience") "custom"); [auto | reflexivity].
Qed.

Lemma tone_text_dependence (d1 d2 : value) :
  get d1 "brandTone" = get d2 "brandTone" ->
  (strict_eq_string (get d1 "brandTone") "custom" = true ->
   get d1 "customBrandTone" = get d2 "customBrandTone") ->
  getBrandToneText d1 = getBrandToneText d2.
Proof.
  intros Ht Hc. unfold getBrandToneText. rewrite <- Ht.
  destruct (ToBoolean (get d1 "brandTone")); simpl; [|reflexivity].
  destruct (strict_eq_string (get d1 "brandTone") "custom"); [auto | reflexivity].
Qed.

(** X8.  The optional details block reads only targetAudience, brandTone
    and keyMessage, and a custom text only when its selector is the string
    custom: two details values that agree on those give the same block,
    whatever else they hold. *)
Theorem details_block_dependence (d1 d2 : value) :
  get d1 "targetAudience" = get d2 "targetAudience" ->
  get d1 "brandTone" = get d2 "brandTone" ->
  get d1 "keyMessage" = get d2 "keyMessage" ->
  (get d1 "targetAudience" = Str "custom" ->
   get d1 "customTargetAudience" = get d2 "customTargetAudience") ->
  (get d1 "brandTone" = Str "custom" ->
   get d1 "customBrandTone" = get d2 "customBrandTone") ->
  getOptionalDetailsInstructions d1 = getOptionalDetailsInstructions d2.
Proof.
  intros Ha Ht Hk Hca Hct.
  assert (Sa : forall v : value, strict_eq_string v "custom" = true -> v = Str "custom").
  { intros v. destruct v; simpl; try discriminate.
    intros E. apply String.eqb_eq in E. subst. reflexivity. }
  unfold getOptionalDetailsInstructions.
  rewrite (audience_text_dependence d1 d2 Ha (fun E => Hca (Sa _ E))).
  rewrite (tone_text_dependence d1 d2 Ht (fun E => Hct (Sa _ E))).
  rewrite Hk. reflexivity.
Qed.

Lemma find_label_unknown (options : list (string * string)) (v : string) :
  (forall label, ~ In (v, label) options) ->
  find_label options (Str v : value) = Undefined.
Proof.
  intros Hout. unfold find_label.
  assert (E : find (fun opt => strict_eq_string (Str v : value) (fst opt)) options = None).
  { induction options as [| [v' l] options IH]; [reflexivity|].
    simpl. destruct (String.eqb_spec v v') as [-> | N].
    - exfalso. apply (Hout l). left. reflexivity.
    - apply IH. intros label Hin. apply (Hout label). right. exact Hin. }
  rewrite E. reflexivity.
Qed.

(** X9.  Preset selectors.  A target audience or brand tone that is the
    value of a preset other than custom is replaced by that preset's label;
    the selector custom yields the custom text of the request; a non-empty
    selector that is no preset value yields undefined, so that the line is
    left out without any error. *)
Theorem preset_texts (details : value) (v label : string) :
  (In (v, label) audienceOptions -> v <> "custom" ->
   get details "targetAudience" = Str v -> getAudienceText details = Str label) /\
  (In (v, label) toneOptions -> v <> "custom" ->
   get details "brandTone" = Str v -> getBrandToneText details = Str label) /\
  (get details "targetAudience" = Str "custom" ->
   getAudienceText details = get details "customTargetAudience") /\
  (get details "brandTone" = Str "custom" ->
   getBrandToneText details = get details "customBrandTone") /\
  (v <> "" -> (forall l, ~ In (v, l) audienceOptions) ->
   get details "targetAudience" = Str v ->
   getAudienceText details = Undefined /\ ToBoolean (getAudienceText details) = false) /\
  (v <> "" -> (forall l, ~ In (v, l) toneOptions) ->
   get details "brandTone" = Str v ->
   getBrandToneText details = Undefined /\ ToBoolean (getBrandToneText details) = false).
Proof.
  split; [|split; [|split; [|split; [|split]]]].
  - unfold audienceOptions. simpl. intros Hin Hc Hg.
    unfold getAudienceText. rewrite Hg.
    repeat (destruct Hin as [Hin | Hin];
            [injection Hin as <- <-; try congruence; reflexivity|]).
    contradiction.
  - unfold toneOptions. simpl. intros Hin Hc Hg.
    unfold getBrandToneText. rewrite Hg.
    repeat (destruct Hin as [Hin | Hin];
            [injection Hin as <- <-; try congruence; reflexivity|]).
    contradiction.
  - intros Hg. unfold getAudienceText. rewrite Hg. reflexivity.
  - intros Hg. unfold getBrandToneText. rewrite Hg. reflexivity.
  - intros Hne Hout Hg.
    assert (E : getAudienceText details = Undefined).
    { unfold getAudienceText. rewrite Hg. simpl. rewrite (nonempty_not_eqb v Hne). simpl.
      destruct (String.eqb_spec v "custom") as [-> | N].
      - exfalso. apply (Hout "Custom..."). unfold audienceOptions. simpl. tauto.
      - apply find_label_unknown. exact Hout. }
    rewrite E. split; reflexivity.
  - intros Hne Hout Hg.
    assert (E : getBrandToneText details = Undefined).
    { unfold getBrandToneText. rewrite Hg. simpl. rewrite (nonempty_not_eqb v Hne). simpl.
      destruct (String.eqb_spec v "custom") as [-> | N].
      - exfalso. apply (Hout "Custom..."). unfold toneOptions. simpl. tauto.
      - apply find_label_unknown. exact Hout. }
    rewrite E. split; reflexivity.
Qed.

Lemma details_block_lines (details : value) (block : string) :
  getOptionalDetailsInstructions details = Return block ->
  (ToBoolean (getAudienceText details) = true ->
   exists text, ToString (getAudienceText details) = Return text /\
                contains (details_tpl0_part0 ++ text ++ details_tpl0_part1) block = true) /\
  (ToBoolean (getBrandToneText details) = true ->
   exists text, ToString (getBrandToneText details) = Return text /\
                contains (details_tpl1_part0 ++ text ++ details_tpl1_part1) block = true) /\
  (ToBoolean (get details "keyMessage") = true ->
   exists text, ToString (get details "keyMessage") = Return text /\
                contains (details_tpl2_part0 ++ text ++ details_tpl2_part1) block = true).
Proof.
  pose proof (details_block_empty details) as Hempty. revert Hempty.
  details_cases details; intros Hempty; try discriminate;
    try solve [intros _; split; [|split]; intros T; discriminate];
    (match goal with
     | |- (if negb (?s =? "") then _ else _) = _ -> _ =>
         destruct (s =? "") eqn:E;
         [exfalso; destruct Hempty as [Hempty _];
          destruct (Hempty eq_refl) as (A & B & C); discriminate|]
     end);
    cbn [negb];
    (match goal with
     | |- Return ?X = Return _ -> _ =>
         intros R; assert (B : block = X) by congruence; rewrite B; clear R B
     end);
    (split; [|split]); intros T; try discriminate;
    eexists; (split; [reflexivity|]);
    apply contains_later, contains_extend; cbn [append];
    repeat first [ apply contains_self
                 | apply contains_end
                 | apply contains_here
                 | apply contains_extend ].
Qed.

Lemma sent_prompt (oracle : string -> Exc value) (key : option string)
    (req : Request) (p : string) :
  In p (snd (handler oracle key req)) ->
  accepted key req = true /\ request_prompt req = Return p.
Proof.
  intros Hin.
  destruct (handler_cases oracle key req)
    as [[_ E] | [(_ & _ & E) | [(_ & _ & _ & e & E) | [(_ & _ & _ & _ & E)
       | [(_ & e & _ & E) | (Ha & q & Hq & E)]]]]];
    rewrite E in Hin; simpl in Hin; try contradiction.
  destruct Hin as [<- | []]. split; assumption.
Qed.


(** X11.  Every usable targeting detail reaches the oracle: when the
    audience text, the brand tone text or the key message of the request
    is truthy, it has a text and the prompt sent holds its line, that
    text between quotes after its heading. *)
Theorem prompt_carries_the_details (oracle : string -> Exc value)
    (key : option string) (req : Request) (p : string) :
  In p (snd (handler oracle key req)) ->
  let details := get (body req) "details" in
  (ToBoolean (getAudienceText details) = true ->
   exists text,
     ToString (getAudienceText details) = Return text /\
     contains (details_tpl0_part0 ++ text ++ details_tpl0_part1) p = true) /\
  (ToBoolean (getBrandToneText details) = true ->
   exists text,
     ToString (getBrandToneText details) = Return text /\
     contains (details_tpl1_part0 ++ text ++ details_tpl1_part1) p = true) /\
  (ToBoolean (get details "keyMessage") = true ->
   exists text,
     ToString (get details "keyMessage") = Return text /\
     contains (details_tpl2_part0 ++ text ++ details_tpl2_part1) p = true).
Proof.
  intros Hin details. destruct (sent_prompt oracle key req p Hin) as [_ Hp].
  unfold request_prompt, assemble_prompt in Hp. fold details in Hp.
  destruct (getOptionalDetailsInstructions details) as [block | e] eqn:Hblock;
    cbn [bindE] in Hp; [|discriminate].
  destruct (cta_texts (get (body req) "ctas")) as [texts | e];
    cbn [bindE] in Hp; [|discriminate].
  assert (E : p = prompt (getMarketingObjectiveInstructions (get (body req) "objective"))
                         block
                         (JSON_stringify (get (body req) "campaigns"))
                         (JSON_stringify (get (body req) "keywords"))
                         (JSON_stringify texts)) by congruence.
  rewrite E. clear E Hp Hin. unfold prompt.
  destruct (details_block_lines details block Hblock) as (La & Lt & Lk).
  split; [|split]; intros T;
    [destruct (La T) as (text & Et & Ct)
    |destruct (Lt T) as (text & Et & Ct)
    |destruct (Lk T) as (text & Et & Ct)];
    exists text; (split; [exact Et|]);
    do 3 apply contains_later; apply contains_extend; exact Ct.
Qed.

(** X12.  The instruction text identifies the objective: the texts of the
    four objectives are pairwise different, and none of them is the
    neutral text used for any other value. *)
Theorem objective_texts_distinct (s1 s2 : string) :
  In s1 objectives -> In s2 objectives ->
  (getMarketingObjectiveInstructions (Str s1 : value) =
   getMarketingObjectiveInstructions (Str s2 : value) -> s1 = s2) /\
  getMarketingObjectiveInstructions (Str s1 : value) <> instructions_default.
Proof.
  unfold objectives. simpl.
  intros [<- | [<- | [<- | [<- | []]]]] [<- | [<- | [<- | [<- | []]]]];
    (split; [intros E; try reflexivity; vm_compute in E; discriminate
            | vm_compute; discriminate]).
Qed.
End PromptFacts.

(** * Properties of the client *)

Section ClientFacts.
Context {number : Type} `{Builtins number}.

Local Abbreviation value := (value number).
Local Abbreviation Request := (Request number).

Lemma read_response_failure (response : HttpResponse number) (message : string) :
  read_response response = inr message ->
  exists detail, message = communication_failure detail.
Proof.
  unfold read_response. destruct (negb (http_ok response)).
  - intros E. injection E as <-. eauto.
  - destruct (http_json response) as [v | r]; [discriminate|].
    intros E. injection E as <-. eauto.
Qed.

(** X13.  The client resolves exactly when the server answered with an ok
    status and a body that parses, and then with that parsed body as it
    is, not checked to be an array of results; in every other case it
    rejects with an Error whose message is the fixed communication-failure
    sentence followed by a detail. *)
Theorem client_outcomes (fetch : string -> HttpResponse number + rejection)
    (campaigns keywords ctas objective details : value) :
  let sent := JSON_stringify (client_body campaigns keywords ctas objective details) in
  let outcome := analyzeCampaignsWithGemini fetch campaigns keywords ctas objective details in
  (forall results,
     outcome = inl results <->
     exists response, fetch sent = inl response /\
                      http_ok response = true /\
                      http_json response = inl results) /\
  (forall message, outcome = inr message ->
                   exists detail, message = communication_failure detail).
Proof.
  intros sent outcome. subst sent outcome. unfold analyzeCampaignsWithGemini.
  destruct (fetch _) as [response | r]; split.
  - intros results. unfold read_response. split.
    + destruct (http_ok response) eqn:Hok; simpl; [|discriminate].
      destruct (http_json response) as [v | r] eqn:Hj; [|discriminate].
      intros E. injection E as <-. exists response. auto.
    + intros (response' & E & Hok & Hj). injection E as <-.
      rewrite Hok, Hj. reflexivity.
  - intros message. apply read_response_failure.
  - intros results. split; [discriminate|].
    intros (response & E & _). discriminate.
  - intros message E. injection E as <-. eauto.
Qed.

Lemma ToString_Arr (items : list value) :
  ToString (Arr items) = texts <- mapE element_text items ;; Return (join "," texts).
Proof.
  simpl. f_equal. induction items as [| x l IH]; [reflexivity|].
  simpl. rewrite <- IH. destruct x; reflexivity.
Qed.

Lemma element_text_throws (x : value) (e : thrown) :
  element_text x = Throw e -> ToString x = Throw e.
Proof. destruct x; simpl; intros E; first [discriminate E | exact E]. Qed.

(** The only exception of [ToString] is the conversion error. *)
Lemma ToString_throws (v : value) (e : thrown) :
  ToString v = Throw e -> e = not_primitive.
Proof.
  revert v e. fix F 1. intros v e. destruct v as [| | b | n | s | items | props].
  - discriminate.
  - discriminate.
  - destruct b; discriminate.
  - discriminate.
  - discriminate.
  - rewrite ToString_Arr.
    assert (G : forall e', mapE element_text items = Throw e' -> e' = not_primitive).
    { induction items as [| x l IH]; intros e'; [discriminate|].
      simpl. destruct (element_text x) as [t | ex] eqn:Et; simpl.
      - destruct (mapE element_text l) as [ts | el]; simpl; [discriminate|].
        intros E. injection E as <-. apply IH. reflexivity.
      - intros E. injection E as <-.
        exact (F x ex (element_text_throws x ex Et)). }
    destruct (mapE element_text items) as [ts | el]; simpl; [discriminate|].
    intros E. injection E as <-. apply G. reflexivity.
  - simpl. destruct (hides_toString props); [|discriminate].
    intros E. injection E as <-. reflexivity.
Qed.

(** X14.  Of the body of a response that is not ok the client reads the
    error field only.  A truthy error field that converts to text gives
    that text as the detail of the message, whatever else the body holds
    (a details field is never shown); one that does not convert gives the
    message of the conversion error.  The status code is reported only
    when the body parses and has no truthy error field; a body that does
    not parse gives the fixed unknown-error text. *)
Theorem error_body_reading (response : HttpResponse number) :
  http_ok response = false ->
  (forall b text,
     http_json response = inl b -> nullish b = false ->
     ToBoolean (get b "error") = true ->
     ToString (get b "error") = Return text ->
     read_response response = inr (communication_failure text)) /\
  (forall b e,
     http_json response = inl b -> nullish b = false ->
     ToBoolean (get b "error") = true ->
     ToString (get b "error") = Throw e ->
     read_response response =
       inr (communication_failure "Cannot convert object to primitive value")) /\
  (forall b, http_json response = inl b -> nullish b = false ->
             ToBoolean (get b "error") = false ->
             read_response response =
               inr (communication_failure
                      ("Server responded with status: "
                       ++ status_text (http_status response)))) /\
  (forall r, http_json response = inr r ->
             read_response response = inr (communication_failure unknown_server_error)).
Proof.
  intros Hok. unfold read_response, server_error_message. rewrite Hok. simpl.
  split; [|split; [|split]].
  - intros b text Hj Hb He Ht. rewrite Hj.
    destruct b; simpl in Hb; try discriminate; rewrite He, Ht; reflexivity.
  - intros b e Hj Hb He Ht. rewrite Hj.
    rewrite (ToString_throws _ _ Ht) in Ht.
    destruct b; simpl in Hb; try discriminate; rewrite He, Ht; reflexivity.
  - intros b Hj Hb He. rewrite Hj.
    destruct b; simpl in Hb; try discriminate; rewrite He; reflexivity.
  - intros r Hj. rewrite Hj. reflexivity.
Qed.

End ClientFacts.

(** * Properties of the score colours and of the export *)

(** X16.  Score colour and badge colour go together.  For a finite score,
    the colour of the score card is green, yellow or red according to the
    tier whose condition in the prompt the score meets, and the badge of
    that tier's label as the prompt words it (marker, space, wording) has
    the same colour.  A score that is not a number is shown red, and a
    recommendation that carries the wording without its marker is badged
    red in every tier. *)
Theorem colours_follow_the_tiers (q : Q) :
  match Aggregation.tier q with
  | Aggregation.Strong =>
      getScoreColor (Finite q) = "text-green-500" /\
      colorClasses (prompt_label Aggregation.Strong) = badge_green
  | Aggregation.Good =>
      getScoreColor (Finite q) = "text-yellow-500" /\
      colorClasses (prompt_label Aggregation.Good) = badge_yellow
  | Aggregation.NeedsRework =>
      getScoreColor (Finite q) = "text-red-500" /\
      colorClasses (prompt_label Aggregation.NeedsRework) = badge_red
  end /\
  getScoreColor NotANumber = "text-red-500" /\
  (forall t, colorClasses (Aggregation.tier_text t) = badge_red).
Proof.
  split; [|split; [reflexivity | intros [| |]; reflexivity]].
  unfold Aggregation.tier, getScoreColor, ge_literal.
  destruct (Qle_bool 4 q); [split; reflexivity|].
  destruct (Qle_bool 3 q); split; reflexivity.
Qed.

Section MoreExportFacts.
Context {number : Type} `{Builtins number}.

Local Abbreviation record := (record (number := number)).

(** X17.  The export loses no field text: two non-empty result sets, of
    records with at least one field and headers without line break, that
    export to the same text have the same field texts, record by record. *)
Theorem export_is_injective (first1 first2 : record) (rest1 rest2 : list record) :
  Forall (fun r : record => r <> []) (first1 :: rest1) ->
  Forall (fun r : record => r <> []) (first2 :: rest2) ->
  has_newline (join "," (Object_keys first1)) = false ->
  has_newline (join "," (Object_keys first2)) = false ->
  convertToCSV (first1 :: rest1) = convertToCSV (first2 :: rest2) ->
  field_texts (first1 :: rest1) = field_texts (first2 :: rest2).
Proof.
  intros Hne1 Hne2 Hh1 Hh2 E.
  rewrite !convertToCSV_cons in E.
  destruct (field_texts (first1 :: rest1)) as [t1 | e1] eqn:E1;
    destruct (field_texts (first2 :: rest2)) as [t2 | e2] eqn:E2;
    cbn [bindE] in E; try discriminate E.
  - pose proof (parse_of_export first1 rest1 t1 Hne1 Hh1 E1) as P1.
    pose proof (parse_of_export first2 rest2 t2 Hne2 Hh2 E2) as P2.
    congruence.
  - injection E as <-. reflexivity.
Qed.

(** X18.  The download hands a file to the browser exactly when the
    conversion returns a text and the browser supports the download
    attribute; the file then holds that text under the fixed name and
    type.  When the conversion returns a text without that support
    nothing happens and nothing is thrown.  When the conversion throws,
    on an empty list or on a value that does not convert to text, the
    download throws the same error, with or without that support. *)
Theorem download_outcomes (supported : bool) (results : list record) :
  (forall file,
     handleDownload supported results = Return (Some file) <->
     supported = true /\
     exists text, convertToCSV results = Return text /\
                  file = mkDownload text "text/csv;charset=utf-8;"
                                    "Campaign_Evaluation_Result.csv") /\
  (handleDownload supported results = Return None <->
   supported = false /\ exists text, convertToCSV results = Return text) /\
  (forall e, handleDownload supported results = Throw e <->
             convertToCSV results = Throw e).
Proof.
  unfold handleDownload.
  destruct (convertToCSV results) as [text | e0]; cbn [bindE];
    destruct supported; (split; [|split]).
  - intros file. split.
    + intros E. injection E as <-. split; [reflexivity|]. exists text. split; reflexivity.
    + intros (_ & text' & E & ->). injection E as <-. reflexivity.
  - split; [discriminate|]. intros [N _]. discriminate.
  - intros e. split; discriminate.
  - intros file. split; [discriminate|]. intros [N _]. discriminate.
  - split; [intros _; split; [reflexivity | eauto] | reflexivity].
  - intros e. split; discriminate.
  - intros file. split; [discriminate|]. intros (_ & text & E & _). discriminate.
  - split; [discriminate|]. intros (_ & text & E). discriminate.
  - intros e. split; intros E; injection E as <-; reflexivity.
  - intros file. split; [discriminate|]. intros (N & _). discriminate.
  - split; [discriminate|]. intros (_ & text & E). discriminate.
  - intros e. split; intros E; injection E as <-; reflexivity.
Qed.
End MoreExportFacts.

(** * Further runs of the model *)

Module MoreRuns.
Import OnIntegers.

Lemma sample_is_sent :
  exists p, request_prompt (post sample_body) = Return p /\
            handler faithful_oracle (Some "secret") (post sample_body) =
              (read_answer faithful_oracle p, [p]).
Proof.
  destruct (request_prompt (post sample_body)) as [p | e] eqn:Hp;
    [|vm_compute in Hp; discriminate].
  exists p. split; [reflexivity|].
  apply (handler_accepted faithful_oracle (Some "secret") (post sample_body) p eq_refl Hp).
Qed.

Lemma success_comes_from_the_oracle_witness :
  status (fst (handler faithful_oracle (Some "secret") (post sample_body))) = 200%Z /\
  exists p j,
    faithful_oracle p = Return j /\
    handler faithful_oracle (Some "secret") (post sample_body) =
      (json 200 (get j "results"), [p]).
Proof.
  assert (Hs : status (fst (handler faithful_oracle (Some "secret") (post sample_body)))
               = 200%Z) by reflexivity.
  destruct (success_comes_from_the_oracle faithful_oracle (Some "secret")
              (post sample_body) Hs) as (p & j & _ & _ & Ho & _ & Hh).
  exact (conj Hs (ex_intro _ p (ex_intro _ j (conj Ho Hh)))).
Defined.

Lemma missing_body_is_a_server_error_witness :
  method (post (Null : value Z)) = "POST" /\
  key_missing (Some "secret") = false /\
  nullish (body (post (Null : value Z))) = true /\
  status (fst (handler faithful_oracle (Some "secret") (post Null))) = 500%Z /\
  snd (handler faithful_oracle (Some "secret") (post Null)) = [].
Proof.
  destruct (missing_body_is_a_server_error faithful_oracle (Some "secret") (post Null)
              eq_refl eq_refl eq_refl) as (Hs & _ & _ & Hc).
  exact (conj eq_refl (conj eq_refl (conj eq_refl (conj Hs Hc)))).
Defined.

Lemma unreadable_ctas_stop_the_request_witness :
  let no_map := post (Obj [("campaigns", Arr [Str "Hello"]); ("keywords", Arr [Str "k"]);
                           ("ctas", Str "Buy now"); ("objective", Str "sales");
                           ("details", Obj [])]) in
  let no_text := post (Obj [("campaigns", Arr [Str "Hello"]); ("keywords", Arr [Str "k"]);
                            ("ctas", Arr []); ("objective", Str "sales");
                            ("details", Obj [("keyMessage",
                                              Obj [("toString", Num 1%Z)])])]) in
  accepted (Some "secret") no_map = true /\
  accepted (Some "secret") no_text = true /\
  ctas_unreadable (get (body no_map) "ctas") = true /\
  getOptionalDetailsInstructions (get (body no_text) "details") = Throw not_primitive /\
  (snd (handler faithful_oracle (Some "secret") no_map) = [] /\
   status (fst (handler faithful_oracle (Some "secret") no_map)) = 500%Z) /\
  (snd (handler faithful_oracle (Some "secret") no_text) = [] /\
   status (fst (handler faithful_oracle (Some "secret") no_text)) = 500%Z).
Proof.
  intros no_map no_text.
  destruct (unreadable_ctas_stop_the_request faithful_oracle (Some "secret") no_map eq_refl)
    as [[_ Hcalls1] Hstatus1].
  destruct (unreadable_ctas_stop_the_request faithful_oracle (Some "secret") no_text eq_refl)
    as [[_ Hcalls2] Hstatus2].
  assert (U1 : (exists e, getOptionalDetailsInstructions (get (body no_map) "details")
                          = Throw e)
               \/ ctas_unreadable (get (body no_map) "ctas") = true)
    by (right; reflexivity).
  assert (U2 : (exists e, getOptionalDetailsInstructions (get (body no_text) "details")
                          = Throw e)
               \/ ctas_unreadable (get (body no_text) "ctas") = true)
    by (left; exists not_primitive; reflexivity).
  destruct (Hstatus1 U1) as [S1 _]. destruct (Hstatus2 U2) as [S2 _].
  exact (conj eq_refl (conj eq_refl (conj eq_refl (conj eq_refl
           (conj (conj (Hcalls1 U1) S1) (conj (Hcalls2 U2) S2)))))).
Defined.

Lemma details_block_dependence_witness :
  let d1 : value Z := Obj [("targetAudience", Str "genz"); ("keyMessage", Str "Fast")] in
  let d2 : value Z := Obj [("keyMessage", Str "Fast"); ("customTargetAudience", Str "Sailors");
                           ("budget", Num 5%Z); ("targetAudience", Str "genz")] in
  d1 <> d2 /\
  getOptionalDetailsInstructions d1 = getOptionalDetailsInstructions d2.
Proof.
  intros d1 d2. split; [discriminate|].
  apply (details_block_dependence d1 d2); try reflexivity; discriminate.
Defined.


Lemma prompt_carries_the_details_witness :
  exists p,
    In p (snd (handler faithful_oracle (Some "secret") (post sample_body))) /\
    contains (details_tpl0_part0 ++ "Gen Z / Young Adults" ++ details_tpl0_part1) p = true /\
    contains (details_tpl2_part0 ++ "Up to 50% off" ++ details_tpl2_part1) p = true.
Proof.
  destruct sample_is_sent as (p & _ & Hh).
  assert (Hin : In p (snd (handler faithful_oracle (Some "secret") (post sample_body)))).
  { rewrite Hh. left. reflexivity. }
  destruct (prompt_carries_the_details faithful_oracle (Some "secret") (post sample_body)
              p Hin) as (Ha & _ & Hk).
  destruct (Ha eq_refl) as (ta & Eta & Ca).
  destruct (Hk eq_refl) as (tk & Etk & Ck).
  assert (Ea : ta = "Gen Z / Young Adults") by (vm_compute in Eta; congruence).
  assert (Ek : tk = "Up to 50% off") by (vm_compute in Etk; congruence).
  rewrite Ea in Ca. rewrite Ek in Ck.
  exists p. exact (conj Hin (conj Ca Ck)).
Defined.

Lemma objective_texts_distinct_witness :
  In "sales" objectives /\ In "loyalty" objectives /\
  getMarketingObjectiveInstructions (Str "sales" : value Z) <>
  getMarketingObjectiveInstructions (Str "loyalty" : value Z).
Proof.
  assert (H1 : In "sales" objectives) by (simpl; tauto).
  assert (H2 : In "loyalty" objectives) by (simpl; tauto).
  destruct (objective_texts_distinct (number := Z) "sales" "loyalty" H1 H2) as [Hinj _].
  refine (conj H1 (conj H2 _)). intros E. specialize (Hinj E). discriminate Hinj.
Defined.

Lemma error_body_reading_witness :
  let response : HttpResponse Z :=
    mkHttpResponse 500 (inl (Obj [("error", Str "Failed to analyze campaigns.");
                                  ("details", Str "fetch failed")])) in
  let no_text : HttpResponse Z :=
    mkHttpResponse 500 (inl (Obj [("error", Obj [("toString", Num 1%Z)])])) in
  http_ok response = false /\
  http_ok no_text = false /\
  read_response response =
    inr (communication_failure "Failed to analyze campaigns.") /\
  read_response no_text =
    inr (communication_failure "Cannot convert object to primitive value").
Proof.
  intros response no_text.
  destruct (error_body_reading response eq_refl) as (Herr & _ & _ & _).
  destruct (error_body_reading no_text eq_refl) as (_ & Hthrow & _ & _).
  exact (conj eq_refl (conj eq_refl
           (conj (Herr _ _ eq_refl eq_refl eq_refl eq_refl)
                 (Hthrow _ _ eq_refl eq_refl eq_refl eq_refl)))).
Defined.

Lemma export_is_injective_witness :
  let numeric : list (list (string * value Z)) := [[("message", Str "Hi"); ("score", Num 4%Z)]] in
  let textual : list (list (string * value Z)) := [[("message", Str "Hi"); ("score", Str "4")]] in
  numeric <> textual /\
  convertToCSV numeric = convertToCSV textual /\
  field_texts numeric = field_texts textual.
Proof.
  intros numeric textual.
  assert (Hn : Forall (fun r : list (string * value Z) => r <> []) numeric)
    by (repeat constructor; discriminate).
  assert (Ht : Forall (fun r : list (string * value Z) => r <> []) textual)
    by (repeat constructor; discriminate).
  assert (E : convertToCSV numeric = convertToCSV textual) by reflexivity.
  split; [discriminate|].
  exact (conj E (export_is_injective _ _ _ _ Hn Ht eq_refl eq_refl E)).
Defined.
End MoreRuns.


(** * Properties of the results table *)

Section TableFacts.
Context {number : Type} `{Builtins number}.

Local Abbreviation value := (value number).

(** X19.  The table shows the composite score and five component scores
    and leaves the subjective fit score out: two results that agree on the
    campaign message, the recommendation and those six scores are shown
    alike, whatever their subjective fit score or other fields.  Every
    card shown has its explanation: the fallback text is used for no
    title of the table. *)
Theorem subjective_fit_is_not_shown (r1 r2 : value) :
  (get r1 "campaignMessage" = get r2 "campaignMessage" ->
   get r1 "recommendation" = get r2 "recommendation" ->
   (forall field,
      In field ["weightedCampaignConfidenceScore"; "combinedEmotionScore";
                "clarityAndImpactScore"; "ctaStrengthScore"; "trendRelevanceScore";
                "steppsShareabilityScore"] ->
      get r1 field = get r2 field) ->
   result_view r1 = result_view r2) /\
  ~ In "subjectiveFitScore" (map (fun card => fst (fst card)) (score_cards r1)) /\
  Forall (fun card => ScoreInfo (fst (fst card)) <> "No description available.")
         (score_cards r1).
Proof.
  split; [|split].
  - intros Hm Hr Hs. unfold result_view, score_cards.
    rewrite Hm, Hr. rewrite !(Hs _) by (simpl; tauto). reflexivity.
  - simpl. intuition discriminate.
  - unfold score_cards. repeat constructor; vm_compute; discriminate.
Qed.
End TableFacts.
